(** * The ELK log shipper of go-api (package [logging])

    A shallow embedding of [logging/logger.go]: the process-wide logger
    singleton, the construction of a [LogEntry], its JSON document, the
    fire-and-forget dispatch of [Log] and the level wrappers.

    Modelling conventions.
    - A Go [map[string]interface{}] is a reference: the [Heap] holds the maps
      and a value of map type is [option loc], where [None] is the nil map.
    - The call stack of a goroutine is a list of frames, innermost first;
      [runtime.Caller(skip)] looks at position [skip].
    - A [go] statement puts a [Task] into the pool of the [World]; a task is
      run later, on a stack of its own, by [run_goroutine].
    - What the Go runtime, the operating system and the network answer
      (clock, hostname, environment variables, the result of an HTTP round
      trip) is read from a [Runtime] record that every operation receives. *)

From stdpp Require Import base option list gmap strings pretty sorting.
From Stdlib Require Import ZArith Lia.

Open Scope string_scope.
Open Scope Z_scope.
Open Scope list_scope.
Open Scope stdpp_scope.

(** ** Dynamic values and Go maps *)

(** The dynamic values stored under [interface{}] by the callers of the
    package, and [VOpaque] for the values [encoding/json] rejects (channels,
    functions, complex numbers): it carries the name of the Go type and the
    text [%v] prints. A finite float is kept as its decimal text. *)
Inductive Value : Type :=
  | VNil
  | VBool (b : bool)
  | VInt (n : Z)
  | VFloat (text : string)
  | VStr (s : string)
  | VOpaque (go_type shown : string).

#[global] Instance Value_eq_dec : EqDecision Value.
Proof. solve_decision. Defined.

Abbreviation loc := nat (only parsing).

(** The maps of the program, by reference. *)
Abbreviation Heap := (list (gmap string Value)) (only parsing).

(** [make(map[string]interface{})] and map literals. *)
Definition heap_alloc (m : gmap string Value) (h : Heap) : loc * Heap :=
  (length h, h ++ [m]).

(** The contents of a map value; the nil map reads as empty. *)
Definition heap_read (h : Heap) (fields : option loc) : gmap string Value :=
  match fields with
  | None => ∅
  | Some r => default ∅ (h !! r)
  end.

(** [m[k] = v] through the reference [r]. *)
Definition heap_store (r : loc) (k : string) (v : Value) (h : Heap) : Heap :=
  alter (insert k v) r h.

(** ** The Go runtime as seen by the package *)

Record Frame : Type := mkFrame {
  fr_func : string;
  fr_file : string;
  fr_line : Z
}.

(** [runtime.Caller(skip)], called in the function whose frame is the head of
    [stk]: file and line of the frame [skip] levels up, [None] for [ok =
    false]. *)
Definition runtime_Caller (stk : list Frame) (skip : nat) : option (string * Z) :=
  match stk !! skip with
  | Some fr => Some (fr_file fr, fr_line fr)
  | None => None
  end.

(** Every goroutine starts as if called from [runtime.goexit]: that frame is
    the outermost one of its stack. The wrapper that the compiler puts
    around the call of a [go] statement is left out by [runtime.Caller]. The
    line number stands for the one of the Go release in use; nothing below
    reads it. *)
Definition goexit_frame : Frame :=
  mkFrame "runtime.goexit" "runtime/asm_amd64.s" 1700.

Definition goroutine_root : list Frame := [goexit_frame].

Record HttpClient : Type := mkHttpClient {
  Timeout : Z;               (* seconds *)
  MaxIdleConns : Z;
  MaxIdleConnsPerHost : Z;
  IdleConnTimeout : Z        (* seconds *)
}.

(** ** JSON documents *)

#[local] Set Warnings "-register-all".
Inductive Json : Type :=
  | JNull
  | JBool (b : bool)
  | JNum (n : Z)
  | JFloat (text : string)
  | JString (s : string)
  | JObject (members : list (string * Json)).
#[local] Set Warnings "register-all".

Record Request : Type := mkRequest {
  req_method : string;
  req_url : string;
  req_headers : list (string * string);
  req_body : Json
}.

(** What [httpClient.Do] answers: a transport error or a response, of which
    the code reads the status only. *)
Inductive DoResult : Type :=
  | TransportError (err : string)
  | Response (StatusCode : Z).

Record Runtime : Type := mkRuntime {
  now_utc_rfc3339nano : string;  (* time.Now().UTC().Format(time.RFC3339Nano) *)
  now_local_clock : string;      (* time.Now().Format("15:04:05.000") *)
  runtime_Version : string;      (* runtime.Version() *)
  os_Hostname : string;          (* os.Hostname(), its error dropped *)
  os_environ : gmap string string;
  http_NewRequest_error : string -> string -> option string;
  http_Do : Request -> DoResult
}.

(** [os.Getenv]: the empty string for a variable that is not set. *)
Definition os_Getenv (rt : Runtime) (key : string) : string :=
  default "" (os_environ rt !! key).

(** ** ELKLogger and LogEntry *)

Record ELKLogger : Type := mkELKLogger {
  logstashURL : string;
  httpClient : HttpClient;
  serviceName : string;
  environment : string;
  hostname : string;
  serverIP : string
}.

Record LogEntry : Type := mkLogEntry {
  Timestamp : string;
  Level : string;
  Service : string;
  Message : string;
  Fields : option loc;
  Environment : string;
  Host : string;
  ServerIP : string;
  GoVersion : string
}.

(** The source file of the package, as [runtime.Caller] reports it; the
    path depends on where the package was built. *)
Definition logger_go : string := "logging/logger.go".

(** [fmt.Sprintf("%s:%d", file, line)]. *)
Definition caller_text (file : string) (line : Z) : string :=
  file +:+ ":" +:+ pretty line.

(** [createLogEntry], called with [stk] the stack of its caller (the frame
    of the caller on top). The composite literal names no [ServerIP], which
    therefore keeps the zero value of its type. *)
Definition createLogEntry (rt : Runtime) (l : ELKLogger) (stk : list Frame)
    (level message : string) (fields : option loc) (h : Heap)
    : LogEntry * Heap :=
  let '(r, h1) :=
    match fields with
    | None => heap_alloc ∅ h
    | Some r => (r, h)
    end in
  let h2 :=
    match runtime_Caller (mkFrame "createLogEntry" logger_go 138 :: stk) 3 with
    | Some (file, line) => heap_store r "caller" (VStr (caller_text file line)) h1
    | None => h1
    end in
  ({| Timestamp := now_utc_rfc3339nano rt;
      Level := level;
      Service := serviceName l;
      Message := message;
      Fields := Some r;
      Environment := environment l;
      Host := hostname l;
      ServerIP := "";
      GoVersion := runtime_Version rt |}, h2).

(** ** encoding/json on a LogEntry *)

Inductive result (A : Type) : Type :=
  | Ok (a : A)
  | Err (e : string).
Arguments Ok {A} a.
Arguments Err {A} e.

Definition marshal_value (v : Value) : result Json :=
  match v with
  | VNil => Ok JNull
  | VBool b => Ok (JBool b)
  | VInt n => Ok (JNum n)
  | VFloat t => Ok (JFloat t)
  | VStr s => Ok (JString s)
  | VOpaque ty _ => Err ("json: unsupported type: " +:+ ty)
  end.

Fixpoint marshal_members (kvs : list (string * Value))
    : result (list (string * Json)) :=
  match kvs with
  | [] => Ok []
  | (k, v) :: rest =>
      match marshal_value v with
      | Err e => Err e
      | Ok j =>
          match marshal_members rest with
          | Err e => Err e
          | Ok js => Ok ((k, j) :: js)
          end
      end
  end.

Definition key_le (a b : string * Value) : Prop := String.le a.1 b.1.

#[global] Instance key_le_dec : RelDecision key_le.
Proof. intros a b. unfold key_le. apply _. Defined.

(** A map is written as an object with its keys sorted. *)
Definition marshal_map (m : gmap string Value) : result Json :=
  match marshal_members (merge_sort key_le (map_to_list m)) with
  | Err e => Err e
  | Ok js => Ok (JObject js)
  end.

(** [json.Marshal(entry)]: the members in the order of the struct's fields,
    under the names of their tags; [fields] has [omitempty] and is left out
    for a map of length zero. *)
Definition json_Marshal (h : Heap) (e : LogEntry) : result Json :=
  let m := heap_read h (Fields e) in
  let before :=
    [("@timestamp", JString (Timestamp e)); ("level", JString (Level e));
     ("service", JString (Service e)); ("message", JString (Message e))] in
  let after :=
    [("environment", JString (Environment e)); ("host", JString (Host e));
     ("server_ip", JString (ServerIP e)); ("go_version", JString (GoVersion e))] in
  if Nat.eqb (size m) 0 then Ok (JObject (before ++ after))
  else
    match marshal_map m with
    | Err e => Err e
    | Ok j => Ok (JObject (before ++ [("fields", j)] ++ after))
    end.

(** The member of a JSON object under a name. *)
Fixpoint member (name : string) (members : list (string * Json)) : option Json :=
  match members with
  | [] => None
  | (k, j) :: rest => if String.eqb k name then Some j else member name rest
  end.

Definition json_member (name : string) (doc : Json) : option Json :=
  match doc with
  | JObject members => member name members
  | _ => None
  end.

(** ** The state of the process *)

(** A started [go l.sendLogAsync(level, message, fields)]: the receiver and
    the arguments, evaluated when the [go] statement runs. The methods only
    read their receiver, so the record it points to stands for it. *)
Record Task : Type := mkTask {
  t_logger : ELKLogger;
  t_level : string;
  t_message : string;
  t_fields : option loc
}.

Record World : Type := mkWorld {
  heap : Heap;
  loggers : list ELKLogger;      (* the ELKLogger objects built so far *)
  loggerInstance : option nat;   (* the package variable: nil or a pointer *)
  once_done : bool;              (* the package variable [once] *)
  stdout : list string;
  stderr : list string;
  goroutines : list Task;        (* started and not yet run *)
  posted : list Request          (* the requests given to httpClient.Do *)
}.

Definition set_heap (h : Heap) (w : World) : World :=
  mkWorld h (loggers w) (loggerInstance w) (once_done w) (stdout w) (stderr w)
          (goroutines w) (posted w).

Definition print_stdout (s : string) (w : World) : World :=
  mkWorld (heap w) (loggers w) (loggerInstance w) (once_done w) (stdout w ++ [s])
          (stderr w) (goroutines w) (posted w).

Definition print_stderr (s : string) (w : World) : World :=
  mkWorld (heap w) (loggers w) (loggerInstance w) (once_done w) (stdout w)
          (stderr w ++ [s]) (goroutines w) (posted w).

Definition go (t : Task) (w : World) : World :=
  mkWorld (heap w) (loggers w) (loggerInstance w) (once_done w) (stdout w)
          (stderr w) (goroutines w ++ [t]) (posted w).

Definition post (r : Request) (w : World) : World :=
  mkWorld (heap w) (loggers w) (loggerInstance w) (once_done w) (stdout w)
          (stderr w) (goroutines w) (posted w ++ [r]).

Definition initial_world : World := mkWorld [] [] None false [] [] [] [].

(** ** Shipping *)

Definition NL : string := String (Ascii.ascii_of_nat 10) EmptyString.
Definition ESC : string := String (Ascii.ascii_of_nat 27) EmptyString.

(** [http.NewRequest("POST", url, body)] followed by the header. *)
Definition http_NewRequest (rt : Runtime) (method url : string) (body : Json)
    : result Request :=
  match http_NewRequest_error rt method url with
  | Some e => Err e
  | None => Ok (mkRequest method url [] body)
  end.

Definition Header_Set (k v : string) (r : Request) : Request :=
  mkRequest (req_method r) (req_url r)
            ((k, v) :: filter (fun kv => kv.1 <> k) (req_headers r)) (req_body r).

(** [sendLogAsync], called with [stk] the stack of its caller. *)
Definition sendLogAsync (rt : Runtime) (l : ELKLogger) (stk : list Frame)
    (level message : string) (fields : option loc) (w : World) : World :=
  let '(entry, h) :=
    createLogEntry rt l (mkFrame "sendLogAsync" logger_go 103 :: stk)
                   level message fields (heap w) in
  let w := set_heap h w in
  match json_Marshal h entry with
  | Err err => print_stderr ("Failed to marshal log: " +:+ err +:+ NL) w
  | Ok jsonData =>
      match http_NewRequest rt "POST" (logstashURL l) jsonData with
      | Err err => print_stderr ("Failed to create log request: " +:+ err +:+ NL) w
      | Ok req =>
          let req := Header_Set "Content-Type" "application/json" req in
          let w := post req w in
          match http_Do rt req with
          | TransportError err =>
              print_stderr ("Failed to send log to ELK: " +:+ err +:+ NL) w
          | Response StatusCode =>
              if 400 <=? StatusCode
              then print_stderr ("Logstash returned error: " +:+ pretty StatusCode +:+ NL) w
              else w
          end
      end
  end.

(** ** The console mirror *)

Definition level_color (level : string) : string :=
  if String.eqb level "ERROR" then ESC +:+ "[31m"
  else if String.eqb level "WARN" then ESC +:+ "[33m"
  else if String.eqb level "INFO" then ESC +:+ "[32m"
  else if String.eqb level "DEBUG" then ESC +:+ "[36m"
  else ESC +:+ "[0m".

(** [%-5s]. *)
Definition pad5 (s : string) : string :=
  s +:+ String.concat "" (replicate (5 - String.length s)%nat " ").

(** [%v]. *)
Definition show_value (v : Value) : string :=
  match v with
  | VNil => "<nil>"
  | VBool true => "true"
  | VBool false => "false"
  | VInt n => pretty n
  | VFloat t => t
  | VStr s => s
  | VOpaque _ shown => shown
  end.

(** One line on standard output. Go leaves the order of [range] over a map
    open; the line lists the keys in the order of [map_to_list]. *)
Definition logToConsole (rt : Runtime) (level message : string)
    (fields : option loc) (w : World) : World :=
  let m := heap_read (heap w) fields in
  let head :=
    level_color level +:+ "[" +:+ now_local_clock rt +:+ "] " +:+ pad5 level
    +:+ " " +:+ message +:+ ESC +:+ "[0m" in
  let tail :=
    if Nat.ltb 0 (size m)
    then " | " +:+ String.concat ""
           (map (fun kv => kv.1 +:+ "=" +:+ show_value kv.2 +:+ " ") (map_to_list m))
    else "" in
  print_stdout (head +:+ tail +:+ NL) w.

(** ** Log and the level wrappers *)

(** [Log], called with [stk] the stack of its caller: the frame on top of
    [stk] is the call site of the logging call. The [go] statement starts
    the shipping on a new goroutine, which inherits nothing of [stk]. *)
Definition Log (rt : Runtime) (l : ELKLogger) (stk : list Frame)
    (level message : string) (fields : option loc) (w : World) : World :=
  let w := go (mkTask l level message fields) w in
  logToConsole rt level message fields w.

Definition Info (rt : Runtime) (l : ELKLogger) (stk : list Frame)
    (message : string) (fields : option loc) (w : World) : World :=
  Log rt l (mkFrame "Info" logger_go 182 :: stk) "INFO" message fields w.

Definition Error (rt : Runtime) (l : ELKLogger) (stk : list Frame)
    (message : string) (fields : option loc) (w : World) : World :=
  Log rt l (mkFrame "Error" logger_go 186 :: stk) "ERROR" message fields w.

Definition Warn (rt : Runtime) (l : ELKLogger) (stk : list Frame)
    (message : string) (fields : option loc) (w : World) : World :=
  Log rt l (mkFrame "Warn" logger_go 190 :: stk) "WARN" message fields w.

Definition Debug (rt : Runtime) (l : ELKLogger) (stk : list Frame)
    (message : string) (fields : option loc) (w : World) : World :=
  if String.eqb (environment l) "development"
  then Log rt l (mkFrame "Debug" logger_go 195 :: stk) "DEBUG" message fields w
  else w.

(** The scheduler runs the [i]-th waiting goroutine to its end: the call of
    [sendLogAsync] sits directly on the root of the new stack. *)
Definition run_task (rt : Runtime) (t : Task) (w : World) : World :=
  sendLogAsync rt (t_logger t) goroutine_root
               (t_level t) (t_message t) (t_fields t) w.

Definition take_task (i : nat) (w : World) : World :=
  mkWorld (heap w) (loggers w) (loggerInstance w) (once_done w) (stdout w)
          (stderr w) (delete i (goroutines w)) (posted w).

Definition run_goroutine (rt : Runtime) (i : nat) (w : World) : World :=
  match goroutines w !! i with
  | Some t => run_task rt t (take_task i w)
  | None => w
  end.

(** ** The singleton *)

Inductive outcome (A : Type) : Type :=
  | Returns (a : A)
  | Panics (msg : string).
Arguments Returns {A} a.
Arguments Panics {A} msg.

Definition set_environment (env : string) (l : ELKLogger) : ELKLogger :=
  mkELKLogger (logstashURL l) (httpClient l) (serviceName l) env (hostname l)
              (serverIP l).

(** [loggerInstance = &ELKLogger{...}]: a new object, and the package
    variable made to point to it. *)
Definition new_logger (l : ELKLogger) (w : World) : World :=
  mkWorld (heap w) (loggers w ++ [l]) (Some (length (loggers w))) (once_done w)
          (stdout w) (stderr w) (goroutines w) (posted w).

Definition mark_once (w : World) : World :=
  mkWorld (heap w) (loggers w) (loggerInstance w) true (stdout w) (stderr w)
          (goroutines w) (posted w).

(** The frames between a caller of [InitLogger] and the function literal
    that [once.Do] runs. *)
Definition once_frames : list Frame :=
  [mkFrame "sync.(*Once).doSlow" "sync/once.go" 78;
   mkFrame "sync.(*Once).Do" "sync/once.go" 69;
   mkFrame "InitLogger" logger_go 43].

(** The function literal of [InitLogger]. The object is entered into
    [loggers] with its environment tag already defaulted: nothing reads it
    between the composite literal and the assignment that follows it. *)
Definition InitLogger_func1 (rt : Runtime) (stk : list Frame) (w : World) : World :=
  let hostname := os_Hostname rt in
  let serverIP := os_Getenv rt "SERVER_IP" in
  let serverIP := if String.eqb serverIP "" then "147.45.183.143" else serverIP in
  let logstashURL := "http://logstash:5000" in
  let l :=
    {| logstashURL := logstashURL;
       httpClient := mkHttpClient 5 100 100 90;
       serviceName := "go-api";
       environment := os_Getenv rt "ENVIRONMENT";
       hostname := hostname;
       serverIP := serverIP |} in
  let l := if String.eqb (environment l) "" then set_environment "production" l else l in
  let w := new_logger l w in
  let '(r, h) :=
    heap_alloc
      (<["server_ip" := VStr serverIP]>
       (<["logstash_url" := VStr logstashURL]>
        (<["environment" := VStr (environment l)]>
         (<["hostname" := VStr hostname]> ∅)))) (heap w) in
  Log rt l (mkFrame "InitLogger.func1" logger_go 76 :: stk) "INFO"
      "Logger initialized on production server" (Some r) (set_heap h w).

(** [InitLogger]: [once.Do] runs the literal at most once in the life of
    the process, and callers that arrive meanwhile wait for it, so that the
    calls of [InitLogger] take effect one after the other. *)
Definition InitLogger (rt : Runtime) (stk : list Frame) (w : World)
    : World * option nat :=
  let w :=
    if once_done w then w
    else mark_once (InitLogger_func1 rt (once_frames ++ stk) w) in
  (w, loggerInstance w).

Arguments InitLogger : simpl never.

Definition GetLogger (w : World) : outcome nat :=
  match loggerInstance w with
  | None => Panics "Logger not initialized. Call InitLogger first"
  | Some p => Returns p
  end.

(** The package-level functions: [GetLogger().Info(message, fields)] and
    its siblings. *)
Definition with_logger (w : World) (k : ELKLogger -> World) : outcome World :=
  match GetLogger w with
  | Panics msg => Panics msg
  | Returns p =>
      match loggers w !! p with
      | Some l => Returns (k l)
      | None => Panics "invalid memory address or nil pointer dereference"
      end
  end.

Definition logging_Info (rt : Runtime) (stk : list Frame) (message : string)
    (fields : option loc) (w : World) : outcome World :=
  with_logger w (fun l =>
    Info rt l (mkFrame "logging.Info" logger_go 201 :: stk) message fields w).

Definition logging_Error (rt : Runtime) (stk : list Frame) (message : string)
    (fields : option loc) (w : World) : outcome World :=
  with_logger w (fun l =>
    Error rt l (mkFrame "logging.Error" logger_go 205 :: stk) message fields w).

Definition logging_Warn (rt : Runtime) (stk : list Frame) (message : string)
    (fields : option loc) (w : World) : outcome World :=
  with_logger w (fun l =>
    Warn rt l (mkFrame "logging.Warn" logger_go 209 :: stk) message fields w).

Definition logging_Debug (rt : Runtime) (stk : list Frame) (message : string)
    (fields : option loc) (w : World) : outcome World :=
  with_logger w (fun l =>
    Debug rt l (mkFrame "logging.Debug" logger_go 213 :: stk) message fields w).

(** ** A sample run *)

Definition demo_rt : Runtime :=
  {| now_utc_rfc3339nano := "2024-05-01T10:00:00.123456789Z";
     now_local_clock := "10:00:00.123";
     runtime_Version := "go1.21.0";
     os_Hostname := "api-1";
     os_environ := ∅;
     http_NewRequest_error := fun _ _ => None;
     http_Do := fun _ => Response 200 |}.

Definition demo_site : list Frame := [mkFrame "main.main" "main.go" 78; goexit_frame].

(** ** The life of the process

    What the rest of the program can do with the package: call its exported
    functions, build maps of its own to pass as [fields], and let the
    scheduler run a goroutine that waits. A panic that nothing recovers ends
    the process. *)
Inductive Action : Type :=
  | CallInitLogger (rt : Runtime) (stk : list Frame)
  | CallGetLogger
  | CallInfo (rt : Runtime) (stk : list Frame) (message : string) (fields : option loc)
  | CallError (rt : Runtime) (stk : list Frame) (message : string) (fields : option loc)
  | CallWarn (rt : Runtime) (stk : list Frame) (message : string) (fields : option loc)
  | CallDebug (rt : Runtime) (stk : list Frame) (message : string) (fields : option loc)
  | MakeMap (m : gmap string Value)
  | Schedule (rt : Runtime) (i : nat).

Definition step (a : Action) (w : World) : outcome World :=
  match a with
  | CallInitLogger rt stk => Returns (InitLogger rt stk w).1
  | CallGetLogger =>
      match GetLogger w with
      | Returns _ => Returns w
      | Panics msg => Panics msg
      end
  | CallInfo rt stk message fields => logging_Info rt stk message fields w
  | CallError rt stk message fields => logging_Error rt stk message fields w
  | CallWarn rt stk message fields => logging_Warn rt stk message fields w
  | CallDebug rt stk message fields => logging_Debug rt stk message fields w
  | MakeMap m => Returns (set_heap (heap_alloc m (heap w)).2 w)
  | Schedule rt i => Returns (run_goroutine rt i w)
  end.

Fixpoint run (acts : list Action) (w : World) : outcome World :=
  match acts with
  | [] => Returns w
  | a :: rest =>
      match step a w with
      | Returns w1 => run rest w1
      | Panics msg => Panics msg
      end
  end.

(** The frames that [createLogEntry] finds above itself when the shipping
    goroutine runs it. *)
Definition createLogEntry_frame : Frame := mkFrame "createLogEntry" logger_go 138.
Definition sendLogAsync_frame : Frame := mkFrame "sendLogAsync" logger_go 103.

(** The entry that a started goroutine builds, and the heap it leaves. *)
Definition shipped_entry (rt : Runtime) (t : Task) (h : Heap) : LogEntry * Heap :=
  createLogEntry rt (t_logger t) (sendLogAsync_frame :: goroutine_root)
                 (t_level t) (t_message t) (t_fields t) h.

(** A stack on which [createLogEntry] has three frames above it: what it
    would find if its caller had been called, without [go], from [Log] called
    at [main.go:78]. *)
Definition deep_stack : list Frame :=
  [sendLogAsync_frame; mkFrame "Log" logger_go 96; mkFrame "main.main" "main.go" 78].

Definition demo_logger : ELKLogger :=
  mkELKLogger "http://logstash:5000" (mkHttpClient 5 100 100 90) "go-api"
              "production" "api-1" "147.45.183.143".

(** ** Notions used in the statements *)

(** The request that [sendLogAsync] hands to the client. *)
Definition log_request (l : ELKLogger) (doc : Json) : Request :=
  mkRequest "POST" (logstashURL l) [("Content-Type", "application/json")] doc.

(** The same process with another network behind it. *)
Definition with_network (rt : Runtime)
    (nr : string -> string -> option string) (do : Request -> DoResult) : Runtime :=
  mkRuntime (now_utc_rfc3339nano rt) (now_local_clock rt) (runtime_Version rt)
            (os_Hostname rt) (os_environ rt) nr do.

Definition calls_InitLogger (a : Action) : bool :=
  match a with
  | CallInitLogger _ _ => true
  | _ => false
  end.

(** The three things that make up the singleton. *)
Definition singleton (w : World) : list ELKLogger * option nat * bool :=
  (loggers w, loggerInstance w, once_done w).

(** The logger that the first call of [InitLogger] builds. *)
Definition configured_logger (rt : Runtime) : ELKLogger :=
  {| logstashURL := "http://logstash:5000";
     httpClient := mkHttpClient 5 100 100 90;
     serviceName := "go-api";
     environment :=
       if String.eqb (os_Getenv rt "ENVIRONMENT") "" then "production"
       else os_Getenv rt "ENVIRONMENT";
     hostname := os_Hostname rt;
     serverIP :=
       if String.eqb (os_Getenv rt "SERVER_IP") "" then "147.45.183.143"
       else os_Getenv rt "SERVER_IP" |}.

(** Before the first call the singleton is as at the start of the process;
    from then on it is one object, pointed to by [loggerInstance]. *)
Definition singleton_ok (w : World) : Prop :=
  singleton w = ([], None, false)
  \/ exists l, singleton w = ([l], Some 0%nat, true).

(** The map literal of the self-test entry. *)
Definition selftest_fields (l : ELKLogger) : gmap string Value :=
  <["server_ip" := VStr (serverIP l)]>
  (<["logstash_url" := VStr (logstashURL l)]>
   (<["environment" := VStr (environment l)]>
    (<["hostname" := VStr (hostname l)]> ∅))).

Definition staging_rt : Runtime :=
  with_network
    (mkRuntime "2024-05-01T10:00:05.000000001Z" "10:00:05.000" "go1.21.0" "api-1"
               (<["ENVIRONMENT" := "development"]> (<["SERVER_IP" := "10.0.0.7"]> ∅))
               (fun _ _ => None) (fun _ => Response 200))
    (fun _ _ => None) (fun _ => Response 503).

(** A dynamic value that [encoding/json] cannot write. *)
Definition is_opaque (v : Value) : bool :=
  match v with
  | VOpaque _ _ => true
  | _ => false
  end.



#[global] Instance key_le_total : Total key_le.
Proof. intros a b. unfold key_le. apply (total String.le). Qed.

(** The entry and the document of [info("order placed", {"order_id": 42})]. *)
Definition order_heap : list (gmap string Value) := [{["order_id" := VInt 42]}].





(** The process after [InitLogger] and the shipping of the self-test entry. *)
Definition demo_world : World :=
  run_goroutine demo_rt 0 (InitLogger demo_rt demo_site initial_world).1.


(** ** Package metrics

    A counter is the number of its increments, a gauge an integer, a
    histogram the list of the values it has observed, each per tuple of
    label values. [registered] holds the names of the collectors that the
    default registry knows. *)
Record Metrics : Type := mkMetrics {
  registered : list string;
  httpRequestsTotal : gmap (list string) nat;
  httpRequestDuration : gmap (list string) (list Z);  (* durations, in ns *)
  httpRequestSize : gmap (list string) (list Z);
  ordersProcessed : nat;
  usersRegistered : nat;
  productsViewed : gmap (list string) nat;
  errorCounter : gmap (list string) nat;
  activeRequests : Z
}.

Definition no_metrics : Metrics := mkMetrics [] ∅ ∅ ∅ 0 0 ∅ ∅ 0.

(** [c.WithLabelValues(labels...).Inc()] and
    [h.WithLabelValues(labels...).Observe(v)]. *)
Definition counter_inc (labels : list string) (c : gmap (list string) nat)
    : gmap (list string) nat :=
  <[labels := S (default 0%nat (c !! labels))]> c.

Definition counter_value (labels : list string) (c : gmap (list string) nat) : nat :=
  default 0%nat (c !! labels).

Definition histogram_observe (labels : list string) (v : Z)
    (h : gmap (list string) (list Z)) : gmap (list string) (list Z) :=
  <[labels := default [] (h !! labels) ++ [v]]> h.

Definition observations (labels : list string) (h : gmap (list string) (list Z))
    : list Z :=
  default [] (h !! labels).





Definition RecordOrder (m : Metrics) : Metrics :=
  mkMetrics (registered m) (httpRequestsTotal m) (httpRequestDuration m)
            (httpRequestSize m) (S (ordersProcessed m)) (usersRegistered m)
            (productsViewed m) (errorCounter m) (activeRequests m).

Definition RecordUserRegistration (m : Metrics) : Metrics :=
  mkMetrics (registered m) (httpRequestsTotal m) (httpRequestDuration m)
            (httpRequestSize m) (ordersProcessed m) (S (usersRegistered m))
            (productsViewed m) (errorCounter m) (activeRequests m).

Definition RecordProductView (productID : string) (m : Metrics) : Metrics :=
  mkMetrics (registered m) (httpRequestsTotal m) (httpRequestDuration m)
            (httpRequestSize m) (ordersProcessed m) (usersRegistered m)
            (counter_inc [productID] (productsViewed m)) (errorCounter m)
            (activeRequests m).

Definition RecordError (errorType endpoint : string) (m : Metrics) : Metrics :=
  mkMetrics (registered m) (httpRequestsTotal m) (httpRequestDuration m)
            (httpRequestSize m) (ordersProcessed m) (usersRegistered m)
            (productsViewed m) (counter_inc [errorType; endpoint] (errorCounter m))
            (activeRequests m).

Definition add_active (d : Z) (m : Metrics) : Metrics :=
  mkMetrics (registered m) (httpRequestsTotal m) (httpRequestDuration m)
            (httpRequestSize m) (ordersProcessed m) (usersRegistered m)
            (productsViewed m) (errorCounter m) (activeRequests m + d).

(** The three instruments that the middleware feeds after a request. *)
Definition record_request (method path status : string) (duration contentLength : Z)
    (m : Metrics) : Metrics :=
  mkMetrics (registered m)
            (counter_inc [method; path; status] (httpRequestsTotal m))
            (histogram_observe [method; path] duration (httpRequestDuration m))
            (if 0 <? contentLength
             then histogram_observe [method; path] contentLength (httpRequestSize m)
             else httpRequestSize m)
            (ordersProcessed m) (usersRegistered m) (productsViewed m)
            (errorCounter m) (activeRequests m).

(** ** Requests and responses *)

Record OrderItem : Type := mkOrderItem {
  ProductID : Z;
  Quantity : Z
}.

Record OrderData : Type := mkOrderData {
  UserID : Z;
  Items : list OrderItem
}.

(** The request as the handlers read it. [body_order] is what
    [json.NewDecoder(r.Body).Decode(&orderData)] gives. *)
Record HttpRequest : Type := mkHttpRequest {
  Method : string;
  URL_Path : string;
  RemoteAddr : string;
  UserAgent : string;
  ContentLength : Z;
  body_order : result OrderData
}.

(** What is written to the client: a line of text, a JSON object or a JSON
    array of objects, each followed by a newline. *)
Inductive Payload : Type :=
  | PText (s : string)
  | PObject (members : list (string * Json))
  | PArray (items : list (list (string * Json))).

(** The [http.ResponseWriter] of a request. The first [WriteHeader] fixes
    the status and the header that are sent; a [Write] before it implies
    [WriteHeader(200)]. [rw_wrappers] are the [statusCode] fields of the
    [responseWriter] values wrapped around the writer, innermost first. *)
Record ResponseWriter : Type := mkResponseWriter {
  rw_header : gmap string string;
  rw_status : option Z;
  rw_sent_header : gmap string string;
  rw_body : list Payload;
  rw_wrappers : list Z
}.

Definition new_response : ResponseWriter := mkResponseWriter ∅ None ∅ [] [].

Definition Header_Set_rw (k v : string) (rw : ResponseWriter) : ResponseWriter :=
  mkResponseWriter (<[k := v]> (rw_header rw)) (rw_status rw) (rw_sent_header rw)
                   (rw_body rw) (rw_wrappers rw).

(** [WriteHeader] of the writer of the server. *)
Definition server_WriteHeader (code : Z) (rw : ResponseWriter) : ResponseWriter :=
  match rw_status rw with
  | Some _ => rw
  | None => mkResponseWriter (rw_header rw) (Some code) (rw_header rw)
                             (rw_body rw) (rw_wrappers rw)
  end.

(** [WriteHeader] as the handler calls it: every wrapper on the way notes
    the code and passes it on. *)
Definition WriteHeader (code : Z) (rw : ResponseWriter) : ResponseWriter :=
  let rw := server_WriteHeader code rw in
  mkResponseWriter (rw_header rw) (rw_status rw) (rw_sent_header rw) (rw_body rw)
                   ((fun _ => code) <$> rw_wrappers rw).

(** [Write]: promoted from the embedded writer, it does not pass through
    [WriteHeader] of a wrapper. [err] is the error of the connection. *)
Definition Write (err : option string) (p : Payload) (rw : ResponseWriter)
    : ResponseWriter * option string :=
  let rw := server_WriteHeader 200 rw in
  match err with
  | Some e => (rw, Some e)
  | None =>
      (mkResponseWriter (rw_header rw) (rw_status rw) (rw_sent_header rw)
                        (rw_body rw ++ [p]) (rw_wrappers rw), None)
  end.

(** [http.Error]: the two headers, the status, the message and a newline. *)
Definition http_Error (err : option string) (msg : string) (code : Z)
    (rw : ResponseWriter) : ResponseWriter :=
  let rw := Header_Set_rw "Content-Type" "text/plain; charset=utf-8" rw in
  let rw := Header_Set_rw "X-Content-Type-Options" "nosniff" rw in
  let rw := WriteHeader code rw in
  (Write err (PText (msg +:+ NL)) rw).1.

(** ** The state of the server and the handlers' monad *)

Record Server : Type := mkServer {
  world : World;
  metrics : Metrics;
  draws_used : nat    (* how often the global random source was asked *)
}.

(** What a request finds around it. *)
Record HandlerEnv : Type := mkHandlerEnv {
  env_rt : Runtime;
  env_unix : Z;                  (* time.Now().Unix() *)
  env_unix_nano : Z;             (* time.Now().UnixNano() *)
  env_hours_ago : Z -> string;   (* time.Now().Add(-n * time.Hour).Format(time.RFC3339) *)
  env_now_rfc3339 : string;      (* time.Now().Format(time.RFC3339) *)
  env_total_text : Z -> string;  (* float64(n) + 0.99, as JSON writes it *)
  env_write_error : option string;
  env_draw : nat -> nat;         (* the draws of the global random source *)
  env_since : Z                  (* time.Since(start), in ns *)
}.

Inductive res (A : Type) : Type :=
  | Val (a : A) (rw : ResponseWriter) (s : Server)
  | Panic (msg : string) (rw : ResponseWriter) (s : Server).
Arguments Val {A} a rw s.
Arguments Panic {A} msg rw s.

Definition M (A : Type) : Type := ResponseWriter -> Server -> res A.

Definition ret {A} (a : A) : M A := fun rw s => Val a rw s.

Definition bind {A B} (m : M A) (k : A -> M B) : M B :=
  fun rw s =>
    match m rw s with
    | Val a rw1 s1 => k a rw1 s1
    | Panic msg rw1 s1 => Panic msg rw1 s1
    end.

#[global] Instance M_ret : MRet M := @ret.
#[global] Instance M_bind : MBind M := fun A B k m => bind m k.

Definition on_writer (f : ResponseWriter -> ResponseWriter) : M unit :=
  fun rw s => Val tt (f rw) s.

Definition on_metrics (f : Metrics -> Metrics) : M unit :=
  fun rw s => Val tt rw (mkServer (world s) (f (metrics s)) (draws_used s)).

(** [rand.Intn(n)] for [n > 0]: the next draw, brought into [0, n). *)
Definition Intn (env : HandlerEnv) (n : Z) : M Z :=
  fun rw s =>
    Val (Z.of_nat (env_draw env (draws_used s)) mod n) rw
        (mkServer (world s) (metrics s) (S (draws_used s))).

(** A call [logging.F(message, map[string]interface{}{...})]: the map
    literal is built, then the function is called. *)
Definition log_with
    (f : Runtime -> list Frame -> string -> option nat -> World -> outcome World)
    (env : HandlerEnv) (stk : list Frame) (message : string)
    (fields : gmap string Value) : M unit :=
  fun rw s =>
    let '(r, h) := heap_alloc fields (heap (world s)) in
    let w1 := set_heap h (world s) in
    match f (env_rt env) stk message (Some r) w1 with
    | Returns w2 => Val tt rw (mkServer w2 (metrics s) (draws_used s))
    | Panics msg => Panic msg rw (mkServer w1 (metrics s) (draws_used s))
    end.

(** [json.NewEncoder(w).Encode(v)] for a map and for a slice of objects:
    the error of the marshalling or of the write. *)
Definition Encode_members (env : HandlerEnv) (p : result Payload) : M (option string) :=
  fun rw s =>
    match p with
    | Err e => Val (Some e) rw s
    | Ok p => let '(rw1, err) := Write (env_write_error env) p rw in Val err rw1 s
    end.

Definition payload_of_map (m : gmap string Value) : result Payload :=
  match marshal_members (merge_sort key_le (map_to_list m)) with
  | Err e => Err e
  | Ok js => Ok (PObject js)
  end.

Definition Encode_map (env : HandlerEnv) (m : gmap string Value) : M (option string) :=
  Encode_members env (payload_of_map m).

Definition http_Error_M (env : HandlerEnv) (msg : string) (code : Z) : M unit :=
  on_writer (http_Error (env_write_error env) msg code).

(** ** Package handlers *)

Definition api_go : string := "hadnlers/api.go".

Definition QUOTE : string := String (Ascii.ascii_of_nat 34) EmptyString.

(** The raw string literal [{"error": "msg"}]. *)
Definition error_body (msg : string) : string :=
  "{" +:+ QUOTE +:+ "error" +:+ QUOTE +:+ ": " +:+ QUOTE +:+ msg +:+ QUOTE +:+ "}".

Definition HealthHandler (env : HandlerEnv) (stk : list Frame) (r : HttpRequest)
    : M unit :=
  log_with logging_Info env (mkFrame "HealthHandler" api_go 31 :: stk)
    "Health check requested"
    (<["client_ip" := VStr (RemoteAddr r)]>
     (<["user_agent" := VStr (UserAgent r)]> ∅)) ;;
  on_writer (Header_Set_rw "Content-Type" "application/json") ;;
  _ ← Encode_map env
         (<["status" := VStr "healthy"]>
          (<["timestamp" := VInt (env_unix env)]>
           (<["version" := VStr "1.0.0"]>
            (<["service" := VStr "go-api"]> ∅))));
  ret tt.

Definition user_json (id : Z) (name email created : string) : list (string * Json) :=
  [("id", JNum id); ("name", JString name); ("email", JString email);
   ("created_at", JString created)].

Definition UsersHandler (env : HandlerEnv) (stk : list Frame) (r : HttpRequest)
    : M unit :=
  let requestID := "req-" +:+ pretty (env_unix_nano env) in
  log_with logging_Info env (mkFrame "UsersHandler" api_go 51 :: stk)
    "Processing users request"
    (<["request_id" := VStr requestID]>
     (<["method" := VStr (Method r)]>
      (<["path" := VStr (URL_Path r)]> ∅))) ;;
  n ← Intn env 100;
  if n <? 20 then
    let errMsg := "Database connection failed" in
    log_with logging_Error env (mkFrame "UsersHandler" api_go 60 :: stk) errMsg
      (<["request_id" := VStr requestID]>
       (<["error_type" := VStr "database_error"]>
        (<["retry_count" := VInt 2]> ∅))) ;;
    on_metrics (RecordError "database" "/api/users") ;;
    http_Error_M env (error_body errMsg) 500
  else
    delay ← Intn env 200;
    on_writer (Header_Set_rw "Content-Type" "application/json") ;;
    err ← Encode_members env
             (Ok (PArray
                    [user_json 1 "John Doe" "john@example.com" (env_hours_ago env 24);
                     user_json 2 "Jane Smith" "jane@example.com" (env_hours_ago env 12);
                     user_json 3 "Bob Johnson" "bob@example.com" (env_hours_ago env 6)]));
    match err with
    | Some e =>
        log_with logging_Error env (mkFrame "UsersHandler" api_go 98 :: stk)
          "Failed to encode users response"
          (<["request_id" := VStr requestID]> (<["error" := VStr e]> ∅))
    | None =>
        log_with logging_Info env (mkFrame "UsersHandler" api_go 105 :: stk)
          "Users request completed"
          (<["request_id" := VStr requestID]>
           (<["user_count" := VInt 3]>
            (<["response_time" := VInt delay]> ∅)))
    end.

Definition OrdersHandler (env : HandlerEnv) (stk : list Frame) (r : HttpRequest)
    : M unit :=
  let requestID := "order-" +:+ pretty (env_unix_nano env) in
  if negb (String.eqb (Method r) "POST") then
    log_with logging_Warn env (mkFrame "OrdersHandler" api_go 117 :: stk)
      "Invalid method for orders endpoint"
      (<["request_id" := VStr requestID]>
       (<["method" := VStr (Method r)]>
        (<["expected" := VStr "POST"]> ∅))) ;;
    http_Error_M env (error_body "Method not allowed") 405
  else
    match body_order r with
    | Err e =>
        log_with logging_Error env (mkFrame "OrdersHandler" api_go 136 :: stk)
          "Failed to parse order data"
          (<["request_id" := VStr requestID]> (<["error" := VStr e]> ∅)) ;;
        on_metrics (RecordError "validation" "/api/orders") ;;
        http_Error_M env (error_body "Invalid JSON") 400
    | Ok orderData =>
        log_with logging_Info env (mkFrame "OrdersHandler" api_go 146 :: stk)
          "Processing order"
          (<["request_id" := VStr requestID]>
           (<["user_id" := VInt (UserID orderData)]>
            (<["item_count" := VInt (Z.of_nat (length (Items orderData)))]> ∅))) ;;
        n ← Intn env 100;
        if n <? 15 then
          let errMsg := "Payment processing failed" in
          log_with logging_Error env (mkFrame "OrdersHandler" api_go 155 :: stk) errMsg
            (<["request_id" := VStr requestID]>
             (<["error_type" := VStr "payment_error"]>
              (<["user_id" := VInt (UserID orderData)]> ∅))) ;;
          on_metrics (RecordError "payment" "/api/orders") ;;
          http_Error_M env (error_body errMsg) 402
        else
          processingTime ← Intn env 300;
          orderID ← Intn env 10000;
          total ← Intn env 1000;
          on_writer (Header_Set_rw "Content-Type" "application/json") ;;
          on_writer (WriteHeader 201) ;;
          err ← Encode_map env
                   (<["success" := VBool true]>
                    (<["order_id" := VInt orderID]>
                     (<["status" := VStr "completed"]>
                      (<["total" := VFloat (env_total_text env total)]>
                       (<["timestamp" := VStr (env_now_rfc3339 env)]> ∅)))));
          match err with
          | Some e =>
              log_with logging_Error env (mkFrame "OrdersHandler" api_go 190 :: stk)
                "Failed to encode order response"
                (<["request_id" := VStr requestID]> (<["error" := VStr e]> ∅))
          | None =>
              on_metrics RecordOrder ;;
              on_metrics (fun m =>
                foldl (fun m item => RecordProductView (pretty (ProductID item)) m)
                      m (Items orderData)) ;;
              log_with logging_Info env (mkFrame "OrdersHandler" api_go 205 :: stk)
                "Order processed successfully"
                (<["request_id" := VStr requestID]>
                 (<["order_id" := VInt orderID]>
                  (<["processing_time" := VInt processingTime]>
                   (<["total_amount" := VFloat (env_total_text env total)]> ∅))))
          end
    end.

Definition product_json (id : Z) (name price category : string) (in_stock : bool)
    (rating : string) : list (string * Json) :=
  [("category", JString category); ("id", JNum id); ("in_stock", JBool in_stock);
   ("name", JString name); ("price", JFloat price); ("rating", JFloat rating)].

Definition ProductsHandler (env : HandlerEnv) (stk : list Frame) (r : HttpRequest)
    : M unit :=
  let requestID := "prod-" +:+ pretty (env_unix_nano env) in
  log_with logging_Debug env (mkFrame "ProductsHandler" api_go 217 :: stk)
    "Processing products request"
    (<["request_id" := VStr requestID]> ∅) ;;
  n ← Intn env 100;
  (if n <? 10 then
     log_with logging_Warn env (mkFrame "ProductsHandler" api_go 223 :: stk)
       "Simulating slow response"
       (<["request_id" := VStr requestID]> (<["delay_ms" := VInt 2000]> ∅))
   else ret tt) ;;
  on_writer (Header_Set_rw "Content-Type" "application/json") ;;
  err ← Encode_members env
           (Ok (PArray
                  [product_json 1 "Laptop Pro" "1299.99" "electronics" true "4.5";
                   product_json 2 "Wireless Mouse" "49.99" "accessories" true "4.2";
                   product_json 3 "Mechanical Keyboard" "89.99" "accessories" false "4.7"]));
  match err with
  | Some e =>
      log_with logging_Error env (mkFrame "ProductsHandler" api_go 260 :: stk)
        "Failed to encode products response"
        (<["request_id" := VStr requestID]> (<["error" := VStr e]> ∅))
  | None =>
      log_with logging_Info env (mkFrame "ProductsHandler" api_go 267 :: stk)
        "Products request completed"
        (<["request_id" := VStr requestID]> (<["product_count" := VInt 3]> ∅))
  end.

Definition MetricsHandler (env : HandlerEnv) (stk : list Frame) (r : HttpRequest)
    : M unit :=
  on_writer (Header_Set_rw "Content-Type" "application/json") ;;
  _ ← Encode_map env
         (<["message" := VStr "Metrics are available at /metrics endpoint"]>
          (<["timestamp" := VInt (env_unix env)]> ∅));
  ret tt.

(** ** The middleware *)

Definition push_wrapper (rw : ResponseWriter) : ResponseWriter :=
  mkResponseWriter (rw_header rw) (rw_status rw) (rw_sent_header rw) (rw_body rw)
                   (200 :: rw_wrappers rw).

Definition pop_wrapper (rw : ResponseWriter) : ResponseWriter :=
  mkResponseWriter (rw_header rw) (rw_status rw) (rw_sent_header rw) (rw_body rw)
                   (tail (rw_wrappers rw)).

(** The [statusCode] of the innermost wrapper. *)
Definition wrapper_status (rw : ResponseWriter) : Z :=
  default 200 (head (rw_wrappers rw)).

(** [MetricsMiddleware(next)] serving a request. The deferred [Dec] runs
    also when [next] panics; the lines after [next.ServeHTTP] do not. *)
Definition MetricsMiddleware (next : HandlerEnv -> list Frame -> HttpRequest -> M unit)
    (env : HandlerEnv) (stk : list Frame) (r : HttpRequest) : M unit :=
  fun rw s =>
    let s := mkServer (world s) (add_active 1 (metrics s)) (draws_used s) in
    match next env (mkFrame "MetricsMiddleware.func1" "metrics/metrics.go" 117 :: stk)
               r (push_wrapper rw) s with
    | Panic msg rw1 s1 =>
        Panic msg (pop_wrapper rw1)
              (mkServer (world s1) (add_active (-1) (metrics s1)) (draws_used s1))
    | Val _ rw1 s1 =>
        let m := record_request (Method r) (URL_Path r) (pretty (wrapper_status rw1))
                                (env_since env) (ContentLength r) (metrics s1) in
        Val tt (pop_wrapper rw1)
            (mkServer (world s1) (add_active (-1) m) (draws_used s1))
    end.

(** ** Notions used in the statements about the server *)

(** The logger is there for the handlers. *)
Definition initialised (w : World) : Prop :=
  exists l, loggers w = [l] /\ loggerInstance w = Some 0%nat.

(** The handlers that log. *)
Definition logging_handlers
    : list (HandlerEnv -> list Frame -> HttpRequest -> M unit) :=
  [HealthHandler; UsersHandler; OrdersHandler; ProductsHandler].

(** All handlers that [main] routes to. *)
Definition handlers : list (HandlerEnv -> list Frame -> HttpRequest -> M unit) :=
  [HealthHandler; UsersHandler; OrdersHandler; ProductsHandler; MetricsHandler].

(** How often a product occurs in an order. *)
Definition times_ordered (p : Z) (items : list OrderItem) : nat :=
  length (filter (fun item => ProductID item = p) items).

Definition demo_env : HandlerEnv :=
  mkHandlerEnv demo_rt 1714557600 1714557600123456789 (fun n => pretty n +:+ "h ago")
               "2024-05-01T10:00:00Z" (fun n => pretty n +:+ ".99") None
               (fun _ => 50%nat) 1500000.

Definition demo_order : HttpRequest :=
  mkHttpRequest "POST" "/api/orders" "10.0.0.9:5555" "curl/8" 57
                (Ok (mkOrderData 7 [mkOrderItem 3 1; mkOrderItem 5 2])).

Definition demo_server : Server := mkServer demo_world no_metrics 0.

(** The exported logging functions of the package. *)
Definition package_function
    (f : Runtime -> list Frame -> string -> option nat -> World -> outcome World)
    : Prop :=
  f = logging_Info \/ f = logging_Error \/ f = logging_Warn \/ f = logging_Debug.

(** The handlers that answer without a choice of status. *)
Definition plain_handlers
    : list (HandlerEnv -> list Frame -> HttpRequest -> M unit) :=
  [HealthHandler; ProductsHandler; MetricsHandler].

(** ** Serving requests *)

(** The sum of a counter over all its label values. *)
Definition counter_total (c : gmap (list string) nat) : nat :=
  map_fold (fun _ n acc => (n + acc)%nat) 0%nat c.

(** The stack below a handler that the server calls. *)
Definition server_stack : list Frame :=
  [mkFrame "net/http.(*conn).serve" "net/http/server.go" 2009; goexit_frame].

(** Requests served one after the other, each with a response of its own:
    the statuses sent, [None] where the handler panicked (the server
    recovers the panic of a handler and goes on), and the final state. *)
Fixpoint serve
    (reqs : list ((HandlerEnv -> list Frame -> HttpRequest -> M unit)
                  * HandlerEnv * HttpRequest))
    (s : Server) : list (option Z) * Server :=
  match reqs with
  | [] => ([], s)
  | (h, env, r) :: rest =>
      match MetricsMiddleware h env server_stack r new_response s with
      | Val _ rw s1 =>
          let '(statuses, s2) := serve rest s1 in (rw_status rw :: statuses, s2)
      | Panic _ rw s1 =>
          let '(statuses, s2) := serve rest s1 in (None :: statuses, s2)
      end
  end.

(** * Properties *)

(** ** Reading and writing the heap *)

Lemma heap_store_lookup r k v (h : Heap) :
  heap_store r k v h !! r = insert k v <$> h !! r.
Proof. unfold heap_store. apply list_lookup_alter_eq. Qed.

Lemma heap_store_lookup_ne r r' k v (h : Heap) :
  r <> r' -> heap_store r k v h !! r' = h !! r'.
Proof. intros Hne. unfold heap_store. by apply list_lookup_alter_ne. Qed.

Lemma heap_alloc_lookup_new m (h : Heap) :
  (heap_alloc m h).2 !! (heap_alloc m h).1 = Some m.
Proof. unfold heap_alloc. cbn [fst snd]. by apply list_lookup_middle. Qed.

Lemma heap_alloc_lookup_old m (h : Heap) r :
  (r < length h)%nat -> (heap_alloc m h).2 !! r = h !! r.
Proof. intros Hlt. unfold heap_alloc. cbn [fst snd]. by apply lookup_app_l. Qed.

(** On the stack of a started goroutine the fourth frame does not exist. *)
Lemma goroutine_Caller_3 :
  runtime_Caller (createLogEntry_frame :: sendLogAsync_frame :: goroutine_root) 3 = None.
Proof. reflexivity. Qed.

(** The entry of a started goroutine: a non-nil map is left as it is, a nil
    one is replaced by a new empty map. *)
Lemma shipped_entry_heap rt t h :
  (shipped_entry rt t h).2
  = match t_fields t with Some _ => h | None => h ++ [∅] end.
Proof. unfold shipped_entry, createLogEntry. by destruct (t_fields t). Qed.

Lemma shipped_entry_fields rt t h :
  Fields (shipped_entry rt t h).1
  = Some (match t_fields t with Some r => r | None => length h end).
Proof. unfold shipped_entry, createLogEntry. by destruct (t_fields t). Qed.

Lemma shipped_entry_read rt t h :
  heap_read (shipped_entry rt t h).2 (Fields (shipped_entry rt t h).1)
  = heap_read h (t_fields t).
Proof.
  rewrite shipped_entry_heap, shipped_entry_fields.
  destruct (t_fields t) as [r|]; cbn [heap_read]; [done|].
  by rewrite list_lookup_middle.
Qed.

(** ** C1: the server IP *)

(** C1 (fails on the code). [createLogEntry] never copies the server IP of
    the logger: whatever the logger, the stack and the arguments, the entry
    has the empty string as [ServerIP], and a document made of it has the
    member ["server_ip"] equal to the empty string. *)
Theorem createLogEntry_server_ip_empty rt l stk level message fields h :
  ServerIP (createLogEntry rt l stk level message fields h).1 = ""
  /\ match json_Marshal (createLogEntry rt l stk level message fields h).2
                        (createLogEntry rt l stk level message fields h).1 with
     | Ok doc => json_member "server_ip" doc = Some (JString "")
     | Err _ => True
     end.
Proof.
  unfold createLogEntry.
  destruct fields as [r|]; simpl;
    destruct (runtime_Caller _ 3) as [[file line]|]; simpl; (split; [done|]);
    unfold json_Marshal; simpl;
    (destruct (Nat.eqb _ 0); [done|]);
    by destruct (marshal_map _).
Qed.

(** The process of [main.go] with [SERVER_IP] unset: the logger holds the
    compiled-in address, the two documents shipped hold none. *)
Example server_ip_of_shipped_documents :
  match run [CallInitLogger demo_rt demo_site;
             CallInfo demo_rt demo_site "Shutting down server..." None;
             Schedule demo_rt 0; Schedule demo_rt 0] initial_world with
  | Returns w =>
      (serverIP <$> loggers w) = ["147.45.183.143"]
      /\ (json_member "server_ip" <$> (req_body <$> posted w))
         = [Some (JString ""); Some (JString "")]
  | Panics _ => False
  end.
Proof. vm_compute. done. Qed.

(** ** C2: the call site *)


(** C2 (fails on the code). [Log] starts the shipping with [go]; the
    goroutine that builds the entry has [sendLogAsync] and the root of its
    own stack above [createLogEntry] and nothing of the stack [stk] of the
    caller of [Log]. Whatever that stack is, the lookup three frames up
    fails and the field map of the entry is the map the caller supplied:
    the call site is not recorded. *)
Theorem Log_entry_without_call_site rt l stk level message fields w rt' h :
  goroutines (Log rt l stk level message fields w)
  = goroutines w ++ [mkTask l level message fields]
  /\ runtime_Caller (createLogEntry_frame :: sendLogAsync_frame :: goroutine_root) 3
     = None
  /\ heap_read (shipped_entry rt' (mkTask l level message fields) h).2
               (Fields (shipped_entry rt' (mkTask l level message fields) h).1)
     = heap_read h fields.
Proof.
  split; [done|]. split; [done|]. apply shipped_entry_read.
Qed.

(** [logger.Info("Shutting down server...", nil)] at [main.go:78]: the
    document that is shipped has no ["fields"] member, hence no
    ["caller"]. *)
Example call_site_of_shutdown_message :
  match run [CallInitLogger demo_rt demo_site;
             CallInfo demo_rt demo_site "Shutting down server..." None;
             Schedule demo_rt 1] initial_world with
  | Returns w =>
      (json_member "message" <$> (req_body <$> posted w))
      = [Some (JString "Shutting down server...")]
      /\ (json_member "fields" <$> (req_body <$> posted w)) = [None]
  | Panics _ => False
  end.
Proof. vm_compute. done. Qed.

(** ** C3: the map of the caller *)




(** ** C5: no map given *)

(** C5. Given the nil map, [createLogEntry] makes a new map for the entry:
    the field of the entry is not nil, no map that existed changes, and when
    the caller lookup succeeds the new map holds ["caller"] and nothing
    else. *)
Theorem createLogEntry_nil_fields rt l stk level message (h : Heap) :
  Fields (createLogEntry rt l stk level message None h).1 = Some (length h)
  /\ (forall r, (r < length h)%nat ->
        (createLogEntry rt l stk level message None h).2 !! r = h !! r)
  /\ forall file line,
       runtime_Caller (createLogEntry_frame :: stk) 3 = Some (file, line) ->
       (createLogEntry rt l stk level message None h).2 !! length h
       = Some {["caller" := VStr (caller_text file line)]}.
Proof.
  unfold createLogEntry, createLogEntry_frame, heap_alloc.
  destruct (runtime_Caller _ 3) as [[file line]|]; cbn [fst snd].
  - split; [done|]. split.
    + intros r Hr. rewrite heap_store_lookup_ne by lia. by apply lookup_app_l.
    + intros f n [= <- <-]. rewrite heap_store_lookup.
      by rewrite list_lookup_middle.
  - split; [done|]. split; [|done].
    intros r Hr. by apply lookup_app_l.
Qed.

Lemma createLogEntry_nil_fields_witness :
  runtime_Caller (createLogEntry_frame :: deep_stack) 3 = Some ("main.go", 78)
  /\ (createLogEntry demo_rt demo_logger deep_stack "INFO" "Server stopped gracefully"
                     None []).2 !! 0%nat
     = Some {["caller" := VStr (caller_text "main.go" 78)]}.
Proof.
  split; [reflexivity|].
  exact (proj2 (proj2 (createLogEntry_nil_fields demo_rt demo_logger deep_stack
                         "INFO" "Server stopped gracefully" []))
               "main.go" 78 eq_refl).
Defined.

(** ** C10: the document of an entry without fields *)

Lemma createLogEntry_no_fields_no_caller rt l stk level message (h : Heap) :
  runtime_Caller (createLogEntry_frame :: stk) 3 = None ->
  heap_read (createLogEntry rt l stk level message None h).2
            (Fields (createLogEntry rt l stk level message None h).1) = ∅.
Proof.
  unfold createLogEntry, createLogEntry_frame, heap_alloc. intros ->.
  cbn [fst snd Fields heap_read]. by rewrite list_lookup_middle.
Qed.

(** C10. The document of an entry whose field map is empty has no
    ["fields"] member: the marshalling succeeds and gives an object in
    which that name does not occur. *)
Theorem json_Marshal_omits_empty_fields (h : Heap) e
    (Hempty : heap_read h (Fields e) = ∅) :
  exists members,
    json_Marshal h e = Ok (JObject members) /\ member "fields" members = None.
Proof.
  unfold json_Marshal. rewrite Hempty, map_size_empty. cbn [Nat.eqb].
  eexists. split; [reflexivity|]. reflexivity.
Qed.

Lemma json_Marshal_omits_empty_fields_witness :
  heap_read (shipped_entry demo_rt (mkTask demo_logger "INFO" "Shutting down server..." None) []).2
            (Fields (shipped_entry demo_rt (mkTask demo_logger "INFO" "Shutting down server..." None) []).1)
  = ∅
  /\ exists members,
       json_Marshal
         (shipped_entry demo_rt (mkTask demo_logger "INFO" "Shutting down server..." None) []).2
         (shipped_entry demo_rt (mkTask demo_logger "INFO" "Shutting down server..." None) []).1
       = Ok (JObject members)
       /\ member "fields" members = None.
Proof.
  split; [reflexivity|].
  apply (json_Marshal_omits_empty_fields
           (shipped_entry demo_rt (mkTask demo_logger "INFO" "Shutting down server..." None) []).2
           (shipped_entry demo_rt (mkTask demo_logger "INFO" "Shutting down server..." None) []).1).
  reflexivity.
Defined.

(** A map with an entry is written: the member is there whenever the
    marshalling succeeds. *)
Lemma json_Marshal_keeps_fields (h : Heap) e doc :
  heap_read h (Fields e) <> ∅ ->
  json_Marshal h e = Ok doc ->
  exists j, json_member "fields" doc = Some j.
Proof.
  intros Hne. unfold json_Marshal.
  destruct (Nat.eqb_spec (size (heap_read h (Fields e))) 0) as [H0|_].
  - by apply map_size_empty_iff in H0.
  - destruct (marshal_map _) as [j|err]; [|done].
    intros [= <-]. by exists j.
Qed.

(** ** C4: the debug wrapper *)

(** C4. [Debug] starts a shipping goroutine for a DEBUG entry and prints a
    line exactly when the environment tag of the logger is
    ["development"]; with any other tag it leaves the whole state as it
    was. *)
Theorem Debug_dispatches_iff_development rt l stk message fields w :
  (environment l = "development" <->
     goroutines (Debug rt l stk message fields w)
     = goroutines w ++ [mkTask l "DEBUG" message fields]
     /\ length (stdout (Debug rt l stk message fields w)) = S (length (stdout w)))
  /\ (environment l <> "development" <-> Debug rt l stk message fields w = w).
Proof.
  unfold Debug.
  destruct (String.eqb_spec (environment l) "development") as [Heq|Hne].
  - split; split.
    + intros _. cbn. split; [done|]. rewrite length_app. cbn. lia.
    + done.
    + done.
    + intros Hw. apply (f_equal (fun x => length (stdout x))) in Hw.
      cbn in Hw. rewrite length_app in Hw. cbn in Hw. lia.
  - split; split.
    + done.
    + intros [Hg _]. apply (f_equal length) in Hg.
      rewrite length_app in Hg. cbn in Hg. lia.
    + done.
    + done.
Qed.

(** ** C6: failures of a dispatch *)

(** C6. A dispatch touches the heap (as entry construction does), the list
    of requests and the error stream, and nothing else. It hands at most one
    request to the client and writes at most one line, to the error stream;
    it writes none exactly when the entry was marshalled, the request was
    built and the response came with a status below 400. The call that
    started the dispatch has returned before, with the error stream and the
    list of requests as they were, and with a result that does not depend
    on what the network does. *)
Theorem sendLogAsync_failures_stay_local rt l stk level message fields w :
  let w' := sendLogAsync rt l stk level message fields w in
  let e := (createLogEntry rt l (sendLogAsync_frame :: stk) level message fields (heap w)).1 in
  let h := (createLogEntry rt l (sendLogAsync_frame :: stk) level message fields (heap w)).2 in
  (stdout w' = stdout w /\ goroutines w' = goroutines w /\ loggers w' = loggers w
   /\ loggerInstance w' = loggerInstance w /\ once_done w' = once_done w
   /\ heap w' = h)
  /\ (exists tried report,
        posted w' = posted w ++ tried /\ stderr w' = stderr w ++ report
        /\ (length tried <= 1)%nat /\ (length report <= 1)%nat
        /\ (report = [] <->
            exists doc code,
              json_Marshal h e = Ok doc
              /\ http_NewRequest_error rt "POST" (logstashURL l) = None
              /\ http_Do rt (log_request l doc) = Response code
              /\ code < 400))
  /\ (stderr (Log rt l stk level message fields w) = stderr w
      /\ posted (Log rt l stk level message fields w) = posted w
      /\ forall nr do,
           Log (with_network rt nr do) l stk level message fields w
           = Log rt l stk level message fields w).
Proof.
  cbn zeta. unfold sendLogAsync, sendLogAsync_frame.
  destruct (createLogEntry rt l _ level message fields (heap w)) as [e h].
  cbn [fst snd]. split; [|split; [|done]].
  - destruct (json_Marshal h e) as [doc|err]; [|done].
    unfold http_NewRequest.
    destruct (http_NewRequest_error rt "POST" (logstashURL l)) as [err|]; [done|].
    destruct (http_Do rt _) as [err|code]; [done|].
    by destruct (400 <=? code).
  - destruct (json_Marshal h e) as [doc|err].
    2:{ exists [], ["Failed to marshal log: " +:+ err +:+ NL].
        cbn. rewrite app_nil_r. repeat split; try done; try lia.
        intros (doc & code & Hd & _). discriminate. }
    unfold http_NewRequest.
    destruct (http_NewRequest_error rt "POST" (logstashURL l)) as [err|] eqn:Hnr.
    { exists [], ["Failed to create log request: " +:+ err +:+ NL].
      cbn. rewrite app_nil_r. repeat split; try done; try lia.
      intros (doc' & code & _ & Hn & _). discriminate. }
    change (Header_Set "Content-Type" "application/json"
              (mkRequest "POST" (logstashURL l) [] doc)) with (log_request l doc).
    destruct (http_Do rt (log_request l doc)) as [err|code] eqn:Hdo.
    { exists [log_request l doc], ["Failed to send log to ELK: " +:+ err +:+ NL].
      cbn. repeat split; try done; try lia.
      intros (doc' & code & [= <-] & _ & Hd & _). congruence. }
    destruct (Z.leb_spec 400 code) as [Hge|Hlt].
    { exists [log_request l doc], ["Logstash returned error: " +:+ pretty code +:+ NL].
      cbn. repeat split; try done; try lia.
      intros (doc' & code' & [= <-] & _ & Hd & Hc).
      rewrite Hdo in Hd. injection Hd as <-. lia. }
    exists [log_request l doc], [].
    cbn. rewrite app_nil_r. repeat split; try done; try lia.
    intros _. by exists doc, code.
Qed.

(** ** The singleton along the life of the process *)

Lemma Log_singleton rt l stk level message fields w :
  singleton (Log rt l stk level message fields w) = singleton w.
Proof. reflexivity. Qed.

Lemma sendLogAsync_singleton rt l stk level message fields w :
  singleton (sendLogAsync rt l stk level message fields w) = singleton w.
Proof.
  unfold sendLogAsync.
  destruct (createLogEntry rt l _ level message fields (heap w)) as [e h].
  destruct (json_Marshal h e) as [doc|err]; [|done].
  destruct (http_NewRequest rt "POST" (logstashURL l) doc) as [req|err]; [|done].
  destruct (http_Do rt _) as [err|code]; [done|].
  by destruct (400 <=? code).
Qed.

Lemma run_goroutine_singleton rt i w :
  singleton (run_goroutine rt i w) = singleton w.
Proof.
  unfold run_goroutine. destruct (goroutines w !! i) as [t|]; [|done].
  unfold run_task. by rewrite sendLogAsync_singleton.
Qed.

Lemma with_logger_singleton w k w' :
  (forall l, singleton (k l) = singleton w) ->
  with_logger w k = Returns w' -> singleton w' = singleton w.
Proof.
  intros Hk. unfold with_logger.
  destruct (GetLogger w) as [p|msg]; [|done].
  destruct (loggers w !! p) as [l|]; [|done].
  intros [= <-]. apply Hk.
Qed.

Lemma Debug_singleton rt l stk message fields w :
  singleton (Debug rt l stk message fields w) = singleton w.
Proof. unfold Debug. by destruct (String.eqb _ _). Qed.

Lemma step_CallInitLogger rt stk w :
  step (CallInitLogger rt stk) w = Returns (InitLogger rt stk w).1.
Proof. reflexivity. Qed.

(** Only [InitLogger] touches the singleton. *)
Lemma step_singleton a w w' :
  calls_InitLogger a = false -> step a w = Returns w' -> singleton w' = singleton w.
Proof.
  destruct a as [rt stk| |rt stk m f|rt stk m f|rt stk m f|rt stk m f|m|rt i];
    cbn [calls_InitLogger step]; intros Hc Hs; try discriminate.
  - destruct (GetLogger w); by simplify_eq.
  - eapply with_logger_singleton; [|exact Hs]. intros l. apply Log_singleton.
  - eapply with_logger_singleton; [|exact Hs]. intros l. apply Log_singleton.
  - eapply with_logger_singleton; [|exact Hs]. intros l. apply Log_singleton.
  - eapply with_logger_singleton; [|exact Hs]. intros l. apply Debug_singleton.
  - by simplify_eq.
  - simplify_eq. apply run_goroutine_singleton.
Qed.

Lemma InitLogger_done rt stk w :
  once_done w = true -> InitLogger rt stk w = (w, loggerInstance w).
Proof. unfold InitLogger. by intros ->. Qed.

Lemma InitLogger_first rt stk w :
  once_done w = false ->
  loggers (InitLogger rt stk w).1 = loggers w ++ [configured_logger rt]
  /\ loggerInstance (InitLogger rt stk w).1 = Some (length (loggers w))
  /\ once_done (InitLogger rt stk w).1 = true
  /\ (InitLogger rt stk w).2 = Some (length (loggers w)).
Proof.
  unfold InitLogger. intros ->. unfold InitLogger_func1, configured_logger.
  cbn. by destruct (String.eqb (os_Getenv rt "ENVIRONMENT") "").
Qed.

Lemma singleton_eq w w' :
  singleton w' = singleton w <->
  loggers w' = loggers w /\ loggerInstance w' = loggerInstance w
  /\ once_done w' = once_done w.
Proof.
  unfold singleton. split.
  - intros H. by simplify_eq.
  - by intros (-> & -> & ->).
Qed.

Lemma singleton_ok_cases w :
  singleton_ok w ->
  (loggers w = [] /\ loggerInstance w = None /\ once_done w = false)
  \/ (exists l, loggers w = [l] /\ loggerInstance w = Some 0%nat
                 /\ once_done w = true).
Proof.
  unfold singleton_ok, singleton. intros [H|[l H]].
  - left. by simplify_eq.
  - right. exists l. by simplify_eq.
Qed.

Lemma step_singleton_ok a w w' :
  singleton_ok w -> step a w = Returns w' -> singleton_ok w'.
Proof.
  intros Hok Hs. destruct (calls_InitLogger a) eqn:Hc.
  - destruct a as [rt stk| | | | | | |]; try discriminate.
    rewrite step_CallInitLogger in Hs.
    assert (w' = (InitLogger rt stk w).1) as -> by congruence. clear Hs.
    destruct Hok as [H0|[l Hl]].
    + right. exists (configured_logger rt).
      unfold singleton in H0. simplify_eq.
      destruct (InitLogger_first rt stk w) as (Hl & Hi & Ho & _); [done|].
      unfold singleton. rewrite Hl, Hi, Ho. by rewrite H.
    + right. exists l. unfold singleton in Hl. simplify_eq.
      rewrite (InitLogger_done rt stk w) by done. cbn [fst].
      unfold singleton. congruence.
  - unfold singleton_ok. by rewrite (step_singleton a w w' Hc Hs).
Qed.

Lemma run_singleton_ok acts w w' :
  singleton_ok w -> run acts w = Returns w' -> singleton_ok w'.
Proof.
  revert w. induction acts as [|a acts IH]; intros w Hok; cbn [run].
  - by intros [= <-].
  - destruct (step a w) as [w1|msg] eqn:Hs; [|done].
    apply IH. by eapply step_singleton_ok.
Qed.

Lemma run_app acts1 acts2 w :
  run (acts1 ++ acts2) w
  = match run acts1 w with
    | Returns w1 => run acts2 w1
    | Panics msg => Panics msg
    end.
Proof.
  revert w. induction acts1 as [|a acts1 IH]; intros w; cbn [run app]; [done|].
  by destruct (step a w).
Qed.

(** The flag of [once] tells whether [InitLogger] was called. *)
Lemma run_once_done acts w w' :
  run acts w = Returns w' ->
  once_done w' = once_done w || existsb calls_InitLogger acts.
Proof.
  revert w. induction acts as [|a acts IH]; intros w; cbn [run existsb].
  - intros [= <-]. by rewrite orb_false_r.
  - destruct (step a w) as [w1|msg] eqn:Hs; [|done].
    intros Hr. rewrite (IH _ Hr). destruct (calls_InitLogger a) eqn:Hc.
    + destruct a as [rt stk| | | | | | |]; try discriminate.
      rewrite step_CallInitLogger in Hs.
      assert (w1 = (InitLogger rt stk w).1) as -> by congruence. clear Hs.
      destruct (once_done w) eqn:Ho.
      * rewrite (InitLogger_done rt stk w Ho). cbn [fst]. by rewrite Ho.
      * destruct (InitLogger_first rt stk w Ho) as (_ & _ & -> & _). done.
    + pose proof (step_singleton a w w1 Hc Hs) as Hsg.
      apply singleton_eq in Hsg as (_ & _ & ->). done.
Qed.

(** Without a call of [InitLogger] in between, the singleton stays. *)
Lemma run_singleton acts w w' :
  existsb calls_InitLogger acts = false ->
  run acts w = Returns w' -> singleton w' = singleton w.
Proof.
  revert w. induction acts as [|a acts IH]; intros w; cbn [run existsb].
  - by intros _ [= <-].
  - intros [Ha Hacts]%orb_false_elim.
    destruct (step a w) as [w1|msg] eqn:Hs; [|done].
    intros Hr. rewrite (IH _ Hacts Hr). by eapply step_singleton.
Qed.

(** Once it is built, the singleton stays, whatever is called. *)
Lemma run_singleton_done acts w w' :
  once_done w = true ->
  run acts w = Returns w' -> singleton w' = singleton w.
Proof.
  revert w. induction acts as [|a acts IH]; intros w Ho; cbn [run].
  - by intros [= <-].
  - destruct (step a w) as [w1|msg] eqn:Hs; [|done].
    assert (singleton w1 = singleton w) as H1.
    { destruct (calls_InitLogger a) eqn:Hc; [|by eapply step_singleton].
      destruct a as [rt stk| | | | | | |]; try discriminate.
      rewrite step_CallInitLogger in Hs.
      assert (w1 = (InitLogger rt stk w).1) as -> by congruence.
      by rewrite (InitLogger_done rt stk w Ho). }
    intros Hr. rewrite <- H1. apply IH; [|done].
    apply singleton_eq in H1 as (_ & _ & ->). done.
Qed.

Lemma InitLogger_first_effects rt stk w :
  once_done w = false ->
  heap (InitLogger rt stk w).1 = heap w ++ [selftest_fields (configured_logger rt)]
  /\ goroutines (InitLogger rt stk w).1
     = goroutines w ++ [mkTask (configured_logger rt) "INFO"
                               "Logger initialized on production server"
                               (Some (length (heap w)))]
  /\ length (stdout (InitLogger rt stk w).1) = S (length (stdout w))
  /\ stderr (InitLogger rt stk w).1 = stderr w
  /\ posted (InitLogger rt stk w).1 = posted w.
Proof.
  unfold InitLogger. intros ->.
  unfold InitLogger_func1, configured_logger, selftest_fields, Log, logToConsole.
  cbn [fst snd heap_alloc set_heap new_logger go print_stdout mark_once
       heap goroutines stdout stderr posted
       environment serverIP logstashURL hostname].
  destruct (String.eqb (os_Getenv rt "ENVIRONMENT") "");
    cbn [set_environment environment serverIP logstashURL hostname httpClient
         serviceName];
    (repeat split; try done; rewrite length_app; cbn [length]; lia).
Qed.

(** ** C7: one logger *)

(** C7. At any point of the life of the process a call of [InitLogger]
    returns the pointer to the object numbered 0 and leaves exactly one
    [ELKLogger] object in existence. If [InitLogger] was called before, the
    call changes nothing. If it was not, the call builds the object and
    emits the self-test entry once: one line on the console and one shipping
    goroutine for an INFO entry whose fields name the endpoint, the
    environment tag and the host name. After the call, whatever the process
    does, the object stays the same and every further call of [InitLogger]
    is without effect and returns the same pointer. *)
Theorem InitLogger_idempotent acts w rt stk
    (Hrun : run acts initial_world = Returns w) :
  (InitLogger rt stk w).2 = Some 0%nat
  /\ length (loggers (InitLogger rt stk w).1) = 1%nat
  /\ (existsb calls_InitLogger acts = true -> (InitLogger rt stk w).1 = w)
  /\ (existsb calls_InitLogger acts = false ->
        loggers (InitLogger rt stk w).1 = [configured_logger rt]
        /\ heap (InitLogger rt stk w).1
           = heap w ++ [selftest_fields (configured_logger rt)]
        /\ goroutines (InitLogger rt stk w).1
           = goroutines w ++ [mkTask (configured_logger rt) "INFO"
                                     "Logger initialized on production server"
                                     (Some (length (heap w)))]
        /\ length (stdout (InitLogger rt stk w).1) = S (length (stdout w)))
  /\ (forall acts' w' rt' stk',
        run acts' (InitLogger rt stk w).1 = Returns w' ->
        loggers w' = loggers (InitLogger rt stk w).1
        /\ InitLogger rt' stk' w' = (w', Some 0%nat)).
Proof.
  pose proof (run_once_done acts initial_world w Hrun) as Hdone.
  cbn [initial_world once_done orb] in Hdone.
  assert (singleton_ok w) as Hok.
  { eapply run_singleton_ok; [|exact Hrun]. by left. }
  assert (singleton (InitLogger rt stk w).1 = ([configured_logger rt], Some 0%nat, true)
          /\ (InitLogger rt stk w).2 = Some 0%nat
          \/ once_done w = true
             /\ exists l, singleton w = ([l], Some 0%nat, true)) as Hcase.
  { destruct Hok as [H0|[l Hl]].
    - left. unfold singleton in H0. simplify_eq.
      destruct (InitLogger_first rt stk w) as (Hl & Hi & Ho & Hr); [done|].
      unfold singleton. rewrite Hl, Hi, Ho, Hr, H. done.
    - right. split; [|by exists l]. unfold singleton in Hl. by simplify_eq. }
  assert (once_done (InitLogger rt stk w).1 = true
          /\ loggerInstance (InitLogger rt stk w).1 = Some 0%nat) as [Ho' Hi'].
  { destruct Hcase as [[Hs _]|[Ho [l Hl]]].
    - unfold singleton in Hs. by simplify_eq.
    - rewrite (InitLogger_done rt stk w Ho). cbn [fst].
      unfold singleton in Hl. by simplify_eq. }
  split; [|split; [|split; [|split]]].
  - destruct Hcase as [[_ Hr]|[Ho [l Hl]]]; [done|].
    rewrite (InitLogger_done rt stk w Ho). cbn [snd].
    unfold singleton in Hl. by simplify_eq.
  - destruct Hcase as [[Hs _]|[Ho [l Hl]]].
    + unfold singleton in Hs. simplify_eq. by rewrite H.
    + rewrite (InitLogger_done rt stk w Ho). cbn [fst].
      unfold singleton in Hl. simplify_eq. by rewrite H.
  - intros Hc. rewrite Hc in Hdone. by rewrite (InitLogger_done rt stk w Hdone).
  - intros Hc. rewrite Hc in Hdone.
    destruct (InitLogger_first_effects rt stk w Hdone) as (Hh & Hg & Hso & _).
    destruct Hcase as [[Hs _]|[Ho _]]; [|congruence].
    unfold singleton in Hs. by simplify_eq.
  - intros acts' w' rt' stk' Hrun'.
    pose proof (run_singleton_done acts' _ w' Ho' Hrun') as Hsg.
    apply singleton_eq in Hsg as (Hl & Hi & Ho).
    split; [done|]. rewrite InitLogger_done by congruence. congruence.
Qed.

Lemma InitLogger_idempotent_witness :
  run [CallInitLogger demo_rt demo_site] initial_world
  = Returns (InitLogger demo_rt demo_site initial_world).1
  /\ (InitLogger demo_rt demo_site (InitLogger demo_rt demo_site initial_world).1).2
     = Some 0%nat.
Proof.
  split; [reflexivity|].
  exact (proj1 (InitLogger_idempotent [CallInitLogger demo_rt demo_site]
                  (InitLogger demo_rt demo_site initial_world).1
                  demo_rt demo_site eq_refl)).
Defined.

(** ** C8: the accessor *)

(** C8. As long as [InitLogger] has not been called, [GetLogger] panics,
    and a process that calls it ends there. Once [InitLogger] has been
    called, [GetLogger] returns the pointer to the one logger; right after
    any call of [InitLogger] it returns what that call returned. *)
Theorem GetLogger_needs_InitLogger acts w
    (Hrun : run acts initial_world = Returns w) :
  (existsb calls_InitLogger acts = false ->
     GetLogger w = Panics "Logger not initialized. Call InitLogger first"
     /\ forall acts',
          run (acts ++ CallGetLogger :: acts') initial_world
          = Panics "Logger not initialized. Call InitLogger first")
  /\ (existsb calls_InitLogger acts = true ->
        GetLogger w = Returns 0%nat /\ exists l, loggers w !! 0%nat = Some l)
  /\ (forall rt stk,
        exists p, (InitLogger rt stk w).2 = Some p
                  /\ GetLogger (InitLogger rt stk w).1 = Returns p).
Proof.
  pose proof (run_once_done acts initial_world w Hrun) as Hdone.
  cbn [initial_world once_done orb] in Hdone.
  assert (singleton_ok w) as Hok.
  { eapply run_singleton_ok; [|exact Hrun]. by left. }
  apply singleton_ok_cases in Hok.
  split; [|split].
  - intros Hc. rewrite Hc in Hdone.
    assert (GetLogger w = Panics "Logger not initialized. Call InitLogger first") as Hp.
    { destruct Hok as [(_ & Hi & _)|(l & _ & _ & Ho)]; [|congruence].
      unfold GetLogger. by rewrite Hi. }
    split; [done|]. intros acts'. rewrite run_app, Hrun. cbn [run step].
    by rewrite Hp.
  - intros Hc. rewrite Hc in Hdone.
    destruct Hok as [(_ & _ & Ho)|(l & Hl & Hi & _)]; [congruence|].
    unfold GetLogger. rewrite Hi. split; [done|]. exists l. by rewrite Hl.
  - intros rt stk. destruct (once_done w) eqn:Ho.
    + rewrite (InitLogger_done rt stk w Ho). cbn [fst snd].
      destruct Hok as [(_ & _ & Ho')|(l & _ & Hi & _)]; [congruence|].
      exists 0%nat. unfold GetLogger. by rewrite Hi.
    + destruct (InitLogger_first rt stk w Ho) as (_ & Hi & _ & Hr).
      exists (length (loggers w)). split; [done|]. unfold GetLogger. by rewrite Hi.
Qed.

Lemma GetLogger_needs_InitLogger_witness :
  run [MakeMap ∅] initial_world = Returns (set_heap [∅] initial_world)
  /\ GetLogger (set_heap [∅] initial_world)
     = Panics "Logger not initialized. Call InitLogger first".
Proof.
  split; [reflexivity|].
  exact (proj1 (proj1 (GetLogger_needs_InitLogger [MakeMap ∅]
                         (set_heap [∅] initial_world) eq_refl) eq_refl)).
Defined.

(** A handler that logs before [main] has initialised the logger. *)
Example Info_before_InitLogger :
  run [CallInfo demo_rt demo_site "Health check requested" None] initial_world
  = Panics "Logger not initialized. Call InitLogger first".
Proof. reflexivity. Qed.

(** ** C9: the configuration *)

(** C9. The first call of [InitLogger] reads the process environment: the
    environment tag of the logger is the value of [ENVIRONMENT], or
    ["production"] when that variable is unset or empty; its server IP is
    the value of [SERVER_IP], or ["147.45.183.143"] when that variable is
    unset or empty. Whatever the process does afterwards, later calls of
    [InitLogger] under another environment included, the logger keeps
    these values. *)
Theorem InitLogger_configuration acts1 rt stk acts2 w
    (Hfresh : existsb calls_InitLogger acts1 = false)
    (Hrun : run (acts1 ++ CallInitLogger rt stk :: acts2) initial_world = Returns w) :
  exists l,
    loggers w = [l] /\ loggerInstance w = Some 0%nat
    /\ environment l
       = match os_environ rt !! "ENVIRONMENT" with
         | Some v => if decide (v = "") then "production" else v
         | None => "production"
         end
    /\ serverIP l
       = match os_environ rt !! "SERVER_IP" with
         | Some v => if decide (v = "") then "147.45.183.143" else v
         | None => "147.45.183.143"
         end.
Proof.
  rewrite run_app in Hrun.
  destruct (run acts1 initial_world) as [w1|msg] eqn:H1; [|done].
  pose proof (run_singleton acts1 initial_world w1 Hfresh H1) as Hs1.
  apply singleton_eq in Hs1 as (Hl1 & Hi1 & Ho1).
  cbn [initial_world loggers loggerInstance once_done] in Hl1, Hi1, Ho1.
  cbn [run] in Hrun. rewrite step_CallInitLogger in Hrun.
  destruct (InitLogger_first rt stk w1 Ho1) as (Hl2 & Hi2 & Ho2 & _).
  pose proof (run_singleton_done acts2 _ w Ho2 Hrun) as Hs.
  apply singleton_eq in Hs as (Hl & Hi & _).
  exists (configured_logger rt).
  rewrite Hl, Hi, Hl2, Hi2, Hl1. split; [done|]. split; [done|].
  unfold configured_logger, os_Getenv. cbn [environment serverIP].
  split.
  - destruct (os_environ rt !! "ENVIRONMENT") as [v|]; cbn [from_option id]; [|done].
    destruct (String.eqb_spec v ""), (decide (v = "")); done.
  - destruct (os_environ rt !! "SERVER_IP") as [v|]; cbn [from_option id]; [|done].
    destruct (String.eqb_spec v ""), (decide (v = "")); done.
Qed.

Lemma InitLogger_configuration_witness :
  existsb calls_InitLogger [MakeMap ∅] = false
  /\ exists w,
       run ([MakeMap ∅] ++ CallInitLogger staging_rt demo_site
              :: [CallInitLogger demo_rt demo_site; Schedule demo_rt 0])
           initial_world = Returns w
       /\ exists l, loggers w = [l] /\ environment l = "development"
                    /\ serverIP l = "10.0.0.7".
Proof.
  split; [reflexivity|]. eexists. split; [reflexivity|].
  destruct (InitLogger_configuration [MakeMap ∅] staging_rt demo_site
              [CallInitLogger demo_rt demo_site; Schedule demo_rt 0] _
              eq_refl eq_refl) as (l & Hl & _ & He & Hs).
  exists l. split; [exact Hl|]. split; [exact He|exact Hs].
Defined.

(** * Further properties of the package *)

(** ** The document of an entry *)

Lemma marshal_value_Err v :
  (exists err, marshal_value v = Err err) <-> is_opaque v = true.
Proof.
  destruct v; cbn; split; try done.
  - by intros [err ?].
  - by intros [err ?].
  - by intros [err ?].
  - by intros [err ?].
  - by intros [err ?].
  - intros _. by eexists.
Qed.

Lemma marshal_members_Err kvs :
  (exists err, marshal_members kvs = Err err)
  <-> Exists (fun kv => is_opaque kv.2 = true) kvs.
Proof.
  induction kvs as [|[k v] kvs IH]; cbn [marshal_members].
  - split; [by intros [err ?]|by intros ?%Exists_nil].
  - rewrite Exists_cons, <- IH, <- marshal_value_Err. cbn [snd].
    destruct (marshal_value v) as [j|e].
    + destruct (marshal_members kvs) as [js|e'].
      * split; [by intros [err ?]|]. intros [[err ?]|[err ?]]; done.
      * split; [intros _; right; by eexists|intros _; by eexists].
    + split; [intros _; left; by eexists|intros _; by eexists].
Qed.


Lemma marshal_map_Err m :
  (exists err, marshal_map m = Err err)
  <-> exists k ty shown, m !! k = Some (VOpaque ty shown).
Proof.
  unfold marshal_map.
  assert ((exists err, marshal_members (merge_sort key_le (map_to_list m)) = Err err)
          <-> exists k ty shown, m !! k = Some (VOpaque ty shown)) as Hm.
  { rewrite marshal_members_Err, Exists_exists. split.
    - intros ([k v] & Hin & Hop). rewrite merge_sort_Permutation in Hin.
      apply elem_of_map_to_list in Hin. destruct v; try done. by eauto.
    - intros (k & ty & shown & Hk). exists (k, VOpaque ty shown). split; [|done].
      rewrite merge_sort_Permutation. by apply elem_of_map_to_list. }
  rewrite <- Hm. destruct (marshal_members _) as [js|e].
  - split; intros [err ?]; done.
  - split; intros _; by eexists.
Qed.

Lemma opaque_not_empty (m : gmap string Value) k ty shown :
  m !! k = Some (VOpaque ty shown) -> Nat.eqb (size m) 0 = false.
Proof.
  intros Hk. apply Nat.eqb_neq. intros H0%map_size_empty_iff.
  by rewrite H0 in Hk.
Qed.








(** ** A dispatch, step by step *)

Lemma json_Marshal_opaque (h : Heap) e k ty shown :
  heap_read h (Fields e) !! k = Some (VOpaque ty shown) ->
  exists err, json_Marshal h e = Err err.
Proof.
  intros Hk. unfold json_Marshal. rewrite (opaque_not_empty _ _ _ _ Hk).
  destruct (proj2 (marshal_map_Err (heap_read h (Fields e)))) as [err Herr].
  { by eauto. }
  rewrite Herr. by eexists.
Qed.

Lemma run_task_shipped_entry rt t w :
  run_task rt t w
  = let e := (shipped_entry rt t (heap w)).1 in
    let h := (shipped_entry rt t (heap w)).2 in
    let w1 := set_heap h w in
    match json_Marshal h e with
    | Err err => print_stderr ("Failed to marshal log: " +:+ err +:+ NL) w1
    | Ok doc =>
        match http_NewRequest_error rt "POST" (logstashURL (t_logger t)) with
        | Some err => print_stderr ("Failed to create log request: " +:+ err +:+ NL) w1
        | None =>
            let w2 := post (log_request (t_logger t) doc) w1 in
            match http_Do rt (log_request (t_logger t) doc) with
            | TransportError err =>
                print_stderr ("Failed to send log to ELK: " +:+ err +:+ NL) w2
            | Response code =>
                if 400 <=? code
                then print_stderr ("Logstash returned error: " +:+ pretty code +:+ NL) w2
                else w2
            end
        end
    end.
Proof.
  unfold run_task, sendLogAsync, shipped_entry, sendLogAsync_frame.
  destruct (createLogEntry rt (t_logger t) _ (t_level t) (t_message t)
                           (t_fields t) (heap w)) as [e h].
  cbn [fst snd]. destruct (json_Marshal h e) as [doc|err]; [|done].
  unfold http_NewRequest.
  by destruct (http_NewRequest_error rt "POST" (logstashURL (t_logger t))).
Qed.

(** X4. A log call whose fields hold a value that cannot be written as
    JSON is lost for the remote side: its goroutine makes no request and
    reports the failure of the marshalling in one line on the error stream;
    standard output and the goroutines that wait are not touched. *)
Theorem run_task_unsupported_value rt t w k ty shown
    (Hk : heap_read (heap w) (t_fields t) !! k = Some (VOpaque ty shown)) :
  posted (run_task rt t w) = posted w
  /\ (exists err,
        stderr (run_task rt t w)
        = stderr w ++ ["Failed to marshal log: " +:+ err +:+ NL])
  /\ stdout (run_task rt t w) = stdout w
  /\ goroutines (run_task rt t w) = goroutines w.
Proof.
  rewrite run_task_shipped_entry. cbn zeta.
  destruct (json_Marshal_opaque (shipped_entry rt t (heap w)).2
              (shipped_entry rt t (heap w)).1 k ty shown) as [err ->].
  { by rewrite shipped_entry_read. }
  split; [done|]. split; [by exists err|done].
Qed.

Lemma run_task_unsupported_value_witness :
  heap_read [{["done" := VOpaque "chan bool" "0xc000012345"]}] (Some 0%nat) !! "done"
  = Some (VOpaque "chan bool" "0xc000012345")
  /\ posted (run_task demo_rt (mkTask demo_logger "INFO" "worker started" (Some 0%nat))
                      (set_heap [{["done" := VOpaque "chan bool" "0xc000012345"]}]
                                initial_world))
     = [].
Proof.
  split; [reflexivity|].
  exact (proj1 (run_task_unsupported_value demo_rt
                  (mkTask demo_logger "INFO" "worker started" (Some 0%nat))
                  (set_heap [{["done" := VOpaque "chan bool" "0xc000012345"]}]
                            initial_world)
                  "done" "chan bool" "0xc000012345" eq_refl)).
Defined.

(** ** What is shipped during the life of the process *)





Lemma run_task_heap rt t w :
  heap (run_task rt t w) = (shipped_entry rt t (heap w)).2.
Proof.
  rewrite run_task_shipped_entry. cbn zeta.
  destruct (json_Marshal _ _) as [doc|err]; [|done].
  destruct (http_NewRequest_error rt "POST" _); [done|].
  destruct (http_Do rt _) as [err|code]; [done|]. by destruct (400 <=? code).
Qed.












(** ** The package-level functions *)

Lemma run_loggers_initialised acts w :
  run acts initial_world = Returns w ->
  existsb calls_InitLogger acts = true ->
  exists l, loggers w = [l] /\ loggerInstance w = Some 0%nat.
Proof.
  intros Hrun Hc.
  pose proof (run_once_done acts initial_world w Hrun) as Hdone.
  rewrite Hc in Hdone. cbn in Hdone.
  assert (singleton_ok w) as Hok.
  { eapply run_singleton_ok; [|exact Hrun]. by left. }
  apply singleton_ok_cases in Hok as [(_ & _ & Ho)|(l & Hl & Hi & _)];
    [congruence|by exists l].
Qed.

Lemma with_logger_initialised w l k :
  loggers w = [l] -> loggerInstance w = Some 0%nat ->
  with_logger w k = Returns (k l).
Proof. intros Hl Hi. unfold with_logger, GetLogger. by rewrite Hi, Hl. Qed.

(** X6. Once [InitLogger] has been called, the package-level [Info],
    [Error], [Warn] and [Debug] never panic: each does what the method of
    the same name does on the one logger. *)
Theorem package_functions_after_InitLogger acts w
    (Hrun : run acts initial_world = Returns w)
    (Hinit : existsb calls_InitLogger acts = true) :
  exists l,
    loggers w = [l]
    /\ forall rt stk message fields,
         logging_Info rt stk message fields w
         = Returns (Info rt l (mkFrame "logging.Info" logger_go 201 :: stk)
                         message fields w)
         /\ logging_Error rt stk message fields w
            = Returns (Error rt l (mkFrame "logging.Error" logger_go 205 :: stk)
                             message fields w)
         /\ logging_Warn rt stk message fields w
            = Returns (Warn rt l (mkFrame "logging.Warn" logger_go 209 :: stk)
                            message fields w)
         /\ logging_Debug rt stk message fields w
            = Returns (Debug rt l (mkFrame "logging.Debug" logger_go 213 :: stk)
                             message fields w).
Proof.
  destruct (run_loggers_initialised acts w Hrun Hinit) as (l & Hl & Hi).
  exists l. split; [done|]. intros rt stk message fields.
  unfold logging_Info, logging_Error, logging_Warn, logging_Debug.
  by rewrite !(with_logger_initialised w l _ Hl Hi).
Qed.

Lemma package_functions_after_InitLogger_witness :
  run [CallInitLogger demo_rt demo_site; Schedule demo_rt 0] initial_world
  = Returns demo_world
  /\ existsb calls_InitLogger [CallInitLogger demo_rt demo_site; Schedule demo_rt 0]
     = true
  /\ exists l, loggers demo_world = [l].
Proof.
  split; [reflexivity|]. split; [reflexivity|].
  destruct (package_functions_after_InitLogger
              [CallInitLogger demo_rt demo_site; Schedule demo_rt 0] demo_world
              eq_refl eq_refl) as (l & Hl & _).
  exists l. exact Hl.
Defined.

Lemma run_first_InitLogger acts1 rt stk acts2 w :
  existsb calls_InitLogger acts1 = false ->
  run (acts1 ++ CallInitLogger rt stk :: acts2) initial_world = Returns w ->
  loggers w = [configured_logger rt] /\ loggerInstance w = Some 0%nat.
Proof.
  intros Hfresh Hrun. rewrite run_app in Hrun.
  destruct (run acts1 initial_world) as [w1|msg] eqn:H1; [|done].
  pose proof (run_singleton acts1 initial_world w1 Hfresh H1) as Hs1.
  apply singleton_eq in Hs1 as (Hl1 & Hi1 & Ho1).
  cbn [initial_world loggers loggerInstance once_done] in Hl1, Hi1, Ho1.
  cbn [run] in Hrun. rewrite step_CallInitLogger in Hrun.
  destruct (InitLogger_first rt stk w1 Ho1) as (Hl2 & Hi2 & Ho2 & _).
  pose proof (run_singleton_done acts2 _ w Ho2 Hrun) as Hs.
  apply singleton_eq in Hs as (Hl & Hi & _).
  by rewrite Hl, Hi, Hl2, Hi2, Hl1.
Qed.

(** X7. In a process whose first [InitLogger] finds [ENVIRONMENT] with a
    value other than ["development"] (unset and empty included), every
    later call of the package-level [Debug] returns without any effect: no
    line, no goroutine, nothing on the heap. *)
Theorem Debug_silent_for_process acts1 rt stk acts2 w
    (Hfresh : existsb calls_InitLogger acts1 = false)
    (Henv : os_Getenv rt "ENVIRONMENT" <> "development")
    (Hrun : run (acts1 ++ CallInitLogger rt stk :: acts2) initial_world = Returns w) :
  forall rt' stk' message fields,
    logging_Debug rt' stk' message fields w = Returns w.
Proof.
  destruct (run_first_InitLogger acts1 rt stk acts2 w Hfresh Hrun) as [Hl Hi].
  intros rt' stk' message fields. unfold logging_Debug.
  rewrite (with_logger_initialised w _ _ Hl Hi). f_equal.
  unfold Debug, configured_logger. cbn [environment].
  destruct (String.eqb_spec (os_Getenv rt "ENVIRONMENT") "") as [_|_].
  - done.
  - by destruct (String.eqb_spec (os_Getenv rt "ENVIRONMENT") "development").
Qed.

Lemma Debug_silent_for_process_witness :
  existsb calls_InitLogger [] = false
  /\ os_Getenv demo_rt "ENVIRONMENT" <> "development"
  /\ run ([] ++ CallInitLogger demo_rt demo_site :: [Schedule demo_rt 0]) initial_world
     = Returns demo_world
  /\ logging_Debug staging_rt demo_site "Processing products request" None demo_world
     = Returns demo_world.
Proof.
  assert (os_Getenv demo_rt "ENVIRONMENT" <> "development") as Henv.
  { vm_compute. discriminate. }
  split; [reflexivity|]. split; [exact Henv|]. split; [reflexivity|].
  exact (Debug_silent_for_process [] demo_rt demo_site [Schedule demo_rt 0]
           demo_world eq_refl Henv eq_refl staging_rt demo_site
           "Processing products request" None).
Defined.

(** ** The maps of the callers *)

Lemma Returns_inj {A} (a b : A) : Returns a = Returns b -> a = b.
Proof. by intros [= ->]. Qed.

Lemma with_logger_heap w k w' :
  (forall l, heap (k l) = heap w) ->
  with_logger w k = Returns w' -> heap w' = heap w.
Proof.
  intros Hk. unfold with_logger.
  destruct (GetLogger w) as [p|msg]; [|done].
  destruct (loggers w !! p) as [l|]; [|done].
  intros [= <-]. apply Hk.
Qed.

Lemma Debug_heap rt l stk message fields w :
  heap (Debug rt l stk message fields w) = heap w.
Proof. unfold Debug. by destruct (String.eqb _ _). Qed.

Lemma step_heap_grows a w w' :
  step a w = Returns w' -> exists h, heap w' = heap w ++ h.
Proof.
  destruct a as [rt stk| |rt stk m f|rt stk m f|rt stk m f|rt stk m f|m|rt i];
    cbn [step].
  - intros <-%Returns_inj. destruct (once_done w) eqn:Ho.
    + rewrite (InitLogger_done rt stk w Ho). exists []. by rewrite app_nil_r.
    + destruct (InitLogger_first_effects rt stk w Ho) as (Hh & _). by eexists.
  - destruct (GetLogger w); intros [= <-]. exists []. by rewrite app_nil_r.
  - intros ->%with_logger_heap; [|done]. exists []. by rewrite app_nil_r.
  - intros ->%with_logger_heap; [|done]. exists []. by rewrite app_nil_r.
  - intros ->%with_logger_heap; [|done]. exists []. by rewrite app_nil_r.
  - intros ->%with_logger_heap; [|intros l; apply Debug_heap].
    exists []. by rewrite app_nil_r.
  - intros [= <-]. by eexists.
  - intros [= <-]. unfold run_goroutine.
    destruct (goroutines w !! i) as [t|]; [|exists []; by rewrite app_nil_r].
    rewrite run_task_heap, shipped_entry_heap. cbn [take_task heap].
    destruct (t_fields t); [exists []; by rewrite app_nil_r|by eexists].
Qed.

Lemma run_heap_grows acts w w' :
  run acts w = Returns w' -> exists h, heap w' = heap w ++ h.
Proof.
  revert w. induction acts as [|a acts IH]; intros w; cbn [run].
  - intros [= <-]. exists []. by rewrite app_nil_r.
  - destruct (step a w) as [w1|msg] eqn:Hs; [|done].
    intros (h2 & ->)%IH. destruct (step_heap_grows a w w1 Hs) as (h1 & ->).
    exists (h1 ++ h2). by rewrite app_assoc.
Qed.

(** X8. Through the exported functions the package never writes into a map
    it was given: whatever the process does, a map that exists keeps its
    contents (on the stack of the shipping goroutine the lookup of the call
    site fails, so that the one assignment in [createLogEntry] is not made);
    the heap only gains maps. *)
Theorem maps_of_callers_unchanged acts w w' r m
    (Hrun : run acts w = Returns w')
    (Hr : heap w !! r = Some m) :
  heap w' !! r = Some m.
Proof.
  destruct (run_heap_grows acts w w' Hrun) as (h & ->).
  by apply lookup_app_l_Some.
Qed.

Lemma maps_of_callers_unchanged_witness :
  run [CallInfo demo_rt demo_site "order placed" (Some 1%nat); Schedule demo_rt 0]
      (set_heap (heap demo_world ++ order_heap) demo_world)
  = Returns (run_goroutine demo_rt 0
               (Info demo_rt (configured_logger demo_rt)
                     (mkFrame "logging.Info" logger_go 201 :: demo_site)
                     "order placed" (Some 1%nat)
                     (set_heap (heap demo_world ++ order_heap) demo_world)))
  /\ heap (set_heap (heap demo_world ++ order_heap) demo_world) !! 1%nat
     = Some {["order_id" := VInt 42]}
  /\ heap (run_goroutine demo_rt 0
             (Info demo_rt (configured_logger demo_rt)
                   (mkFrame "logging.Info" logger_go 201 :: demo_site)
                   "order placed" (Some 1%nat)
                   (set_heap (heap demo_world ++ order_heap) demo_world))) !! 1%nat
     = Some {["order_id" := VInt 42]}.
Proof.
  split; [reflexivity|]. split; [reflexivity|].
  exact (maps_of_callers_unchanged
           [CallInfo demo_rt demo_site "order placed" (Some 1%nat); Schedule demo_rt 0]
           (set_heap (heap demo_world ++ order_heap) demo_world) _ 1%nat
           {["order_id" := VInt 42]} eq_refl eq_refl).
Defined.

(** ** Requests and log calls *)






(** * The metrics package and the handlers *)

(** ** Registration *)





(** ** The middleware around any handler *)

Lemma counter_value_inc labels c :
  counter_value labels (counter_inc labels c) = S (counter_value labels c).
Proof. unfold counter_value, counter_inc. by rewrite lookup_insert_eq. Qed.

Lemma counter_value_inc_ne labels labels' c :
  labels <> labels' ->
  counter_value labels' (counter_inc labels c) = counter_value labels' c.
Proof.
  intros Hne. unfold counter_value, counter_inc. by rewrite lookup_insert_ne.
Qed.

Lemma observations_observe labels v h :
  observations labels (histogram_observe labels v h) = observations labels h ++ [v].
Proof. unfold observations, histogram_observe. by rewrite lookup_insert_eq. Qed.

Lemma observations_observe_ne labels labels' v h :
  labels <> labels' ->
  observations labels' (histogram_observe labels v h) = observations labels' h.
Proof.
  intros Hne. unfold observations, histogram_observe. by rewrite lookup_insert_ne.
Qed.


(** ** Logging from a handler *)

Lemma log_with_uninitialised f env stk message fields rw s :
  package_function f -> loggerInstance (world s) = None ->
  log_with f env stk message fields rw s
  = Panic "Logger not initialized. Call InitLogger first" rw
          (mkServer (set_heap (heap (world s) ++ [fields]) (world s))
                    (metrics s) (draws_used s)).
Proof.
  intros Hf Hi. unfold log_with, heap_alloc.
  assert (forall w, loggerInstance w = None ->
            f (env_rt env) stk message (Some (length (heap (world s)))) w
            = Panics "Logger not initialized. Call InitLogger first") as Hp.
  { intros w Hw.
    destruct Hf as [-> | [-> | [-> | ->]]];
      unfold logging_Info, logging_Error, logging_Warn, logging_Debug,
             with_logger, GetLogger; by rewrite Hw. }
  by rewrite Hp.
Qed.

Lemma log_with_initialised f env stk message fields rw s :
  package_function f -> initialised (world s) ->
  exists w',
    log_with f env stk message fields rw s
    = Val tt rw (mkServer w' (metrics s) (draws_used s))
    /\ initialised w'.
Proof.
  intros Hf (l & Hl & Hi). unfold log_with, heap_alloc.
  set (w1 := set_heap (heap (world s) ++ [fields]) (world s)).
  assert (loggers w1 = [l] /\ loggerInstance w1 = Some 0%nat) as [Hl1 Hi1] by done.
  assert (exists w', f (env_rt env) stk message (Some (length (heap (world s)))) w1
                     = Returns w' /\ initialised w') as (w' & -> & Hw').
  { destruct Hf as [-> | [-> | [-> | ->]]];
      unfold logging_Info, logging_Error, logging_Warn, logging_Debug;
      rewrite (with_logger_initialised w1 l _ Hl1 Hi1);
      eexists; (split; [reflexivity|]); exists l.
    - done.
    - done.
    - done.
    - unfold Debug. by destruct (String.eqb _ _). }
  by exists w'.
Qed.

(** X12. A handler that logs cannot serve before [InitLogger] has run: it
    panics at its first logging call, with the message of [GetLogger],
    before anything is written to the response, recorded in the metrics or
    drawn from the random source; the only trace is the map literal built
    for the call. *)
Theorem handlers_need_InitLogger h env stk r rw s
    (Hh : h ∈ logging_handlers)
    (Hnil : loggerInstance (world s) = None) :
  exists fields,
    h env stk r rw s
    = Panic "Logger not initialized. Call InitLogger first" rw
            (mkServer (set_heap (heap (world s) ++ [fields]) (world s))
                      (metrics s) (draws_used s)).
Proof.
  unfold logging_handlers in Hh.
  repeat (apply elem_of_cons in Hh as [->|Hh]); [| | | |by apply elem_of_nil in Hh].
  - unfold HealthHandler, mbind, M_bind, bind.
    rewrite log_with_uninitialised; [by eexists|by left|done].
  - unfold UsersHandler, mbind, M_bind, bind.
    rewrite log_with_uninitialised; [by eexists|by left|done].
  - unfold OrdersHandler. destruct (negb (String.eqb (Method r) "POST")).
    + unfold mbind, M_bind, bind.
      rewrite log_with_uninitialised; [by eexists|by right; right; left|done].
    + destruct (body_order r) as [orderData|e]; unfold mbind, M_bind, bind.
      * rewrite log_with_uninitialised; [by eexists|by left|done].
      * rewrite log_with_uninitialised; [by eexists|by right; left|done].
  - unfold ProductsHandler, mbind, M_bind, bind.
    rewrite log_with_uninitialised; [by eexists|by right; right; right|done].
Qed.

Lemma handlers_need_InitLogger_witness :
  OrdersHandler ∈ logging_handlers
  /\ loggerInstance (world (mkServer initial_world no_metrics 0)) = None
  /\ exists fields,
       OrdersHandler demo_env demo_site demo_order new_response
                     (mkServer initial_world no_metrics 0)
       = Panic "Logger not initialized. Call InitLogger first" new_response
               (mkServer (set_heap ([] ++ [fields]) initial_world) no_metrics 0).
Proof.
  assert (OrdersHandler ∈ logging_handlers) as Hin.
  { right. right. left. }
  split; [exact Hin|]. split; [reflexivity|].
  exact (handlers_need_InitLogger OrdersHandler demo_env demo_site demo_order
           new_response (mkServer initial_world no_metrics 0) Hin eq_refl).
Defined.

(** ** OrdersHandler, path by path *)

Ltac log_step :=
  match goal with
  | |- context [log_with ?f ?env ?stk ?msg ?fl ?rw ?s] =>
      let w := fresh "w" in
      let Hw := fresh "Hw" in
      let E := fresh "E" in
      destruct (log_with_initialised f env stk msg fl rw s) as (w & E & Hw);
      [unfold package_function; auto 6 | assumption | setoid_rewrite E; clear E]
  end.

Lemma OrdersHandler_not_post env stk r rw s :
  initialised (world s) -> Method r <> "POST" ->
  exists w',
    OrdersHandler env stk r rw s
    = Val tt (http_Error (env_write_error env) (error_body "Method not allowed") 405 rw)
          (mkServer w' (metrics s) (draws_used s))
    /\ initialised w'.
Proof.
  intros Hi Hm. unfold OrdersHandler.
  destruct (String.eqb_spec (Method r) "POST") as [|_]; [done|]. cbn [negb].
  unfold mbind, M_bind, bind. log_step. by exists w.
Qed.

Lemma OrdersHandler_bad_body env stk r rw s e :
  initialised (world s) -> Method r = "POST" -> body_order r = Err e ->
  exists w',
    OrdersHandler env stk r rw s
    = Val tt (http_Error (env_write_error env) (error_body "Invalid JSON") 400 rw)
          (mkServer w' (RecordError "validation" "/api/orders" (metrics s))
                    (draws_used s))
    /\ initialised w'.
Proof.
  intros Hi Hm Hb. unfold OrdersHandler. rewrite Hm, Hb.
  change (("POST" =? "POST")%string) with true. cbn [negb].
  unfold mbind, M_bind, bind. log_step. by exists w.
Qed.

Lemma OrdersHandler_payment_failed env stk r rw s orderData :
  initialised (world s) -> Method r = "POST" -> body_order r = Ok orderData ->
  Z.of_nat (env_draw env (draws_used s)) mod 100 < 15 ->
  exists w',
    OrdersHandler env stk r rw s
    = Val tt (http_Error (env_write_error env)
                         (error_body "Payment processing failed") 402 rw)
          (mkServer w' (RecordError "payment" "/api/orders" (metrics s))
                    (S (draws_used s)))
    /\ initialised w'.
Proof.
  intros Hi Hm Hb Hd. unfold OrdersHandler. rewrite Hm, Hb.
  change (("POST" =? "POST")%string) with true. cbn [negb].
  unfold mbind, M_bind, bind. log_step.
  unfold Intn at 1. cbn [world metrics draws_used].
  apply Z.ltb_lt in Hd. rewrite Hd.
  log_step. by exists w0.
Qed.

(** The body of the answer to a completed order. *)
Lemma order_response_payload orderID total_text timestamp :
  payload_of_map
    (<["success" := VBool true]>
     (<["order_id" := VInt orderID]>
      (<["status" := VStr "completed"]>
       (<["total" := VFloat total_text]>
        (<["timestamp" := VStr timestamp]> ∅)))))
  = Ok (PObject [("order_id", JNum orderID); ("status", JString "completed");
                 ("success", JBool true); ("timestamp", JString timestamp);
                 ("total", JFloat total_text)]).
Proof. reflexivity. Qed.

Lemma OrdersHandler_completed env stk r rw s orderData :
  initialised (world s) -> Method r = "POST" -> body_order r = Ok orderData ->
  15 <= Z.of_nat (env_draw env (draws_used s)) mod 100 ->
  exists w',
    OrdersHandler env stk r rw s
    = Val tt
        (Write (env_write_error env)
           (PObject
              [("order_id", JNum (Z.of_nat (env_draw env (2 + draws_used s)) mod 10000));
               ("status", JString "completed"); ("success", JBool true);
               ("timestamp", JString (env_now_rfc3339 env));
               ("total",
                JFloat (env_total_text env
                          (Z.of_nat (env_draw env (3 + draws_used s)) mod 1000)))])
           (WriteHeader 201 (Header_Set_rw "Content-Type" "application/json" rw))).1
        (mkServer w'
           (match env_write_error env with
            | Some _ => metrics s
            | None =>
                foldl (fun m item => RecordProductView (pretty (ProductID item)) m)
                      (RecordOrder (metrics s)) (Items orderData)
            end)
           (4 + draws_used s))
    /\ initialised w'.
Proof.
  intros Hi Hm Hb Hd. unfold OrdersHandler. rewrite Hm, Hb.
  change (("POST" =? "POST")%string) with true. cbn [negb].
  unfold mbind, M_bind, bind. log_step.
  unfold Intn. cbn [world metrics draws_used].
  apply Z.ltb_ge in Hd. rewrite Hd.
  unfold on_writer, Encode_map, Encode_members.
  rewrite order_response_payload.
  unfold Write. destruct (env_write_error env) as [e|].
  - log_step. by exists w0.
  - unfold on_metrics. cbn [world metrics draws_used]. log_step. by exists w0.
Qed.

(** ** The other handlers, path by path *)

Lemma HealthHandler_run env stk r rw s :
  initialised (world s) ->
  exists w',
    HealthHandler env stk r rw s
    = Val tt
        (Write (env_write_error env)
           (PObject [("service", JString "go-api"); ("status", JString "healthy");
                     ("timestamp", JNum (env_unix env));
                     ("version", JString "1.0.0")])
           (Header_Set_rw "Content-Type" "application/json" rw)).1
        (mkServer w' (metrics s) (draws_used s))
    /\ initialised w'.
Proof.
  intros Hi. unfold HealthHandler, mbind, M_bind, bind. log_step.
  unfold on_writer, Encode_map, Encode_members.
  change (payload_of_map _)
    with (Ok (PObject [("service", JString "go-api"); ("status", JString "healthy");
                       ("timestamp", JNum (env_unix env));
                       ("version", JString "1.0.0")])).
  exists w. split; [|done]. by destruct (Write _ _ _).
Qed.

Lemma MetricsHandler_run env stk r rw s :
  MetricsHandler env stk r rw s
  = Val tt
      (Write (env_write_error env)
         (PObject [("message", JString "Metrics are available at /metrics endpoint");
                   ("timestamp", JNum (env_unix env))])
         (Header_Set_rw "Content-Type" "application/json" rw)).1
      s.
Proof.
  unfold MetricsHandler, mbind, M_bind, bind.
  unfold on_writer, Encode_map, Encode_members.
  change (payload_of_map _)
    with (Ok (PObject [("message", JString "Metrics are available at /metrics endpoint");
                       ("timestamp", JNum (env_unix env))])).
  cbv beta iota. unfold ret. destruct (Write _ _ _) as [rw1 err]. reflexivity.
Qed.

Lemma UsersHandler_failed env stk r rw s :
  initialised (world s) ->
  Z.of_nat (env_draw env (draws_used s)) mod 100 < 20 ->
  exists w',
    UsersHandler env stk r rw s
    = Val tt (http_Error (env_write_error env)
                         (error_body "Database connection failed") 500 rw)
          (mkServer w' (RecordError "database" "/api/users" (metrics s))
                    (S (draws_used s)))
    /\ initialised w'.
Proof.
  intros Hi Hd. unfold UsersHandler, mbind, M_bind, bind. log_step.
  unfold Intn at 1. cbn [world metrics draws_used].
  apply Z.ltb_lt in Hd. rewrite Hd. log_step. by exists w0.
Qed.

Lemma UsersHandler_listed env stk r rw s :
  initialised (world s) ->
  20 <= Z.of_nat (env_draw env (draws_used s)) mod 100 ->
  exists w',
    UsersHandler env stk r rw s
    = Val tt
        (Write (env_write_error env)
           (PArray
              [user_json 1 "John Doe" "john@example.com" (env_hours_ago env 24);
               user_json 2 "Jane Smith" "jane@example.com" (env_hours_ago env 12);
               user_json 3 "Bob Johnson" "bob@example.com" (env_hours_ago env 6)])
           (Header_Set_rw "Content-Type" "application/json" rw)).1
        (mkServer w' (metrics s) (2 + draws_used s))
    /\ initialised w'.
Proof.
  intros Hi Hd. unfold UsersHandler, mbind, M_bind, bind. log_step.
  unfold Intn. cbn [world metrics draws_used].
  apply Z.ltb_ge in Hd. rewrite Hd.
  unfold on_writer, Encode_members, Write.
  destruct (env_write_error env) as [e|]; log_step; by exists w0.
Qed.

Lemma ProductsHandler_run env stk r rw s :
  initialised (world s) ->
  exists w',
    ProductsHandler env stk r rw s
    = Val tt
        (Write (env_write_error env)
           (PArray
              [product_json 1 "Laptop Pro" "1299.99" "electronics" true "4.5";
               product_json 2 "Wireless Mouse" "49.99" "accessories" true "4.2";
               product_json 3 "Mechanical Keyboard" "89.99" "accessories" false "4.7"])
           (Header_Set_rw "Content-Type" "application/json" rw)).1
        (mkServer w' (metrics s) (S (draws_used s)))
    /\ initialised w'.
Proof.
  intros Hi. unfold ProductsHandler, mbind, M_bind, bind. log_step.
  unfold Intn. cbn [world metrics draws_used].
  destruct (_ <? 10).
  - log_step. unfold on_writer, Encode_members, Write.
    destruct (env_write_error env) as [e|]; log_step; by exists w1.
  - unfold ret, on_writer, Encode_members, Write.
    destruct (env_write_error env) as [e|]; log_step; by exists w0.
Qed.

(** ** What reaches the client *)

Ltac settle :=
  unfold not in *; intros;
  repeat match goal with
         | H : _ /\ _ |- _ => destruct H
         | H : exists _, _ |- _ => destruct H
         end;
  repeat split;
  first [done | lia | congruence | by eexists].

Lemma http_Error_fresh err msg code rw :
  rw_status rw = None ->
  rw_status (http_Error err msg code rw) = Some code
  /\ rw_wrappers (http_Error err msg code rw) = (fun _ => code) <$> rw_wrappers rw
  /\ rw_sent_header (http_Error err msg code rw) !! "Content-Type"
     = Some "text/plain; charset=utf-8"
  /\ rw_body (http_Error err msg code rw)
     = rw_body rw ++ match err with Some _ => [] | None => [PText (msg +:+ NL)] end.
Proof.
  intros Hf. unfold http_Error, WriteHeader, Write, server_WriteHeader, Header_Set_rw.
  cbn [rw_status rw_header rw_sent_header rw_body rw_wrappers]. rewrite Hf.
  cbn [rw_status rw_header rw_sent_header rw_body rw_wrappers].
  destruct err; cbn [fst rw_status rw_header rw_sent_header rw_body rw_wrappers];
    rewrite ?app_nil_r; (repeat split; try done);
    by rewrite lookup_insert_ne, lookup_insert_eq.
Qed.

Lemma Write_json_fresh err p rw :
  rw_status rw = None ->
  rw_status (Write err p (Header_Set_rw "Content-Type" "application/json" rw)).1
  = Some 200
  /\ rw_wrappers (Write err p (Header_Set_rw "Content-Type" "application/json" rw)).1
     = rw_wrappers rw
  /\ rw_sent_header (Write err p (Header_Set_rw "Content-Type" "application/json" rw)).1
       !! "Content-Type" = Some "application/json"
  /\ rw_body (Write err p (Header_Set_rw "Content-Type" "application/json" rw)).1
     = rw_body rw ++ match err with Some _ => [] | None => [p] end.
Proof.
  intros Hf. unfold Write, server_WriteHeader, Header_Set_rw.
  cbn [rw_status rw_header rw_sent_header rw_body rw_wrappers]. rewrite Hf.
  destruct err; cbn [fst rw_status rw_header rw_sent_header rw_body rw_wrappers];
    rewrite ?app_nil_r; (repeat split; try done);
    by rewrite lookup_insert_eq.
Qed.

Lemma Write_created_fresh err p rw :
  rw_status rw = None ->
  rw_status (Write err p (WriteHeader 201
               (Header_Set_rw "Content-Type" "application/json" rw))).1
  = Some 201
  /\ rw_wrappers (Write err p (WriteHeader 201
                    (Header_Set_rw "Content-Type" "application/json" rw))).1
     = (fun _ => 201) <$> rw_wrappers rw
  /\ rw_sent_header (Write err p (WriteHeader 201
                       (Header_Set_rw "Content-Type" "application/json" rw))).1
       !! "Content-Type" = Some "application/json"
  /\ rw_body (Write err p (WriteHeader 201
                (Header_Set_rw "Content-Type" "application/json" rw))).1
     = rw_body rw ++ match err with Some _ => [] | None => [p] end.
Proof.
  intros Hf. unfold Write, WriteHeader, server_WriteHeader, Header_Set_rw.
  cbn [rw_status rw_header rw_sent_header rw_body rw_wrappers]. rewrite Hf.
  cbn [rw_status rw_header rw_sent_header rw_body rw_wrappers].
  destruct err; cbn [fst rw_status rw_header rw_sent_header rw_body rw_wrappers];
    rewrite ?app_nil_r; (repeat split; try done);
    by rewrite lookup_insert_eq.
Qed.

(** X13. The answers of [OrdersHandler], once the logger is there and
    nothing was sent yet. It never panics and always sends a status: 405
    exactly for a method other than POST; 400 exactly for a POST whose body
    does not decode; 402 exactly for a POST with a good body when the draw
    from [rand.Intn(100)] is below 15; 201 exactly in the remaining case.
    The content type sent is JSON for 201 and plain text for the errors. *)
Theorem OrdersHandler_status env stk r rw s
    (Hi : initialised (world s))
    (Hfresh : rw_status rw = None) :
  exists rw' s' code,
    OrdersHandler env stk r rw s = Val tt rw' s'
    /\ rw_status rw' = Some code
    /\ (code = 405 <-> Method r <> "POST")
    /\ (code = 400 <-> Method r = "POST" /\ exists e, body_order r = Err e)
    /\ (code = 402 <->
        Method r = "POST" /\ (exists od, body_order r = Ok od)
        /\ Z.of_nat (env_draw env (draws_used s)) mod 100 < 15)
    /\ (code = 201 <->
        Method r = "POST" /\ (exists od, body_order r = Ok od)
        /\ 15 <= Z.of_nat (env_draw env (draws_used s)) mod 100)
    /\ rw_sent_header rw' !! "Content-Type"
       = Some (if decide (code = 201) then "application/json"
               else "text/plain; charset=utf-8").
Proof.
  destruct (decide (Method r = "POST")) as [Hm|Hm].
  2:{ destruct (OrdersHandler_not_post env stk r rw s Hi Hm) as (w' & -> & _).
      destruct (http_Error_fresh (env_write_error env)
                  (error_body "Method not allowed") 405 rw Hfresh) as (Hs & _ & Hc & _).
      do 2 eexists. exists 405. split; [reflexivity|]. split; [exact Hs|].
      rewrite Hc. repeat split; try done; settle. }
  destruct (body_order r) as [od|e] eqn:Hb.
  2:{ destruct (OrdersHandler_bad_body env stk r rw s e Hi Hm Hb) as (w' & -> & _).
      destruct (http_Error_fresh (env_write_error env)
                  (error_body "Invalid JSON") 400 rw Hfresh) as (Hs & _ & Hc & _).
      do 2 eexists. exists 400. split; [reflexivity|]. split; [exact Hs|].
      rewrite Hc. repeat split; try done; settle. }
  destruct (Z.lt_ge_cases (Z.of_nat (env_draw env (draws_used s)) mod 100) 15) as [Hd|Hd].
  - destruct (OrdersHandler_payment_failed env stk r rw s od Hi Hm Hb Hd)
      as (w' & -> & _).
    destruct (http_Error_fresh (env_write_error env)
                (error_body "Payment processing failed") 402 rw Hfresh)
      as (Hs & _ & Hc & _).
    do 2 eexists. exists 402. split; [reflexivity|]. split; [exact Hs|].
    rewrite Hc. repeat split; try done; settle.
  - destruct (OrdersHandler_completed env stk r rw s od Hi Hm Hb Hd)
      as (w' & -> & _).
    edestruct (Write_created_fresh (env_write_error env)) as (Hs & _ & Hc & _);
      [exact Hfresh|].
    do 2 eexists. exists 201. split; [reflexivity|]. split; [exact Hs|].
    rewrite Hc. repeat split; try done; settle.
Qed.

Lemma initialised_demo_world : initialised demo_world.
Proof. exists (configured_logger demo_rt). split; reflexivity. Defined.

Lemma OrdersHandler_status_witness :
  initialised (world demo_server)
  /\ rw_status new_response = None
  /\ exists rw' s' code,
       OrdersHandler demo_env demo_site demo_order new_response demo_server
       = Val tt rw' s'
       /\ rw_status rw' = Some code.
Proof.
  split; [exact initialised_demo_world|]. split; [reflexivity|].
  destruct (OrdersHandler_status demo_env demo_site demo_order new_response
              demo_server initialised_demo_world eq_refl)
    as (rw' & s' & code & Hrun & Hs & _).
  exists rw', s', code. split; [exact Hrun|exact Hs].
Defined.

(** ** The business counters *)

Lemma record_views_fold items m :
  (forall p,
     counter_value [pretty p]
       (productsViewed
          (foldl (fun m item => RecordProductView (pretty (ProductID item)) m) m items))
     = (counter_value [pretty p] (productsViewed m) + times_ordered p items)%nat)
  /\ (ordersProcessed
        (foldl (fun m item => RecordProductView (pretty (ProductID item)) m) m items),
      errorCounter
        (foldl (fun m item => RecordProductView (pretty (ProductID item)) m) m items),
      httpRequestsTotal
        (foldl (fun m item => RecordProductView (pretty (ProductID item)) m) m items),
      activeRequests
        (foldl (fun m item => RecordProductView (pretty (ProductID item)) m) m items),
      usersRegistered
        (foldl (fun m item => RecordProductView (pretty (ProductID item)) m) m items))
     = (ordersProcessed m, errorCounter m, httpRequestsTotal m, activeRequests m,
        usersRegistered m).
Proof.
  revert m. induction items as [|item items IH]; intros m; cbn [foldl].
  - split; [|done]. intros p. unfold times_ordered. cbn. lia.
  - destruct (IH (RecordProductView (pretty (ProductID item)) m)) as [Hv Hrest].
    split; [|by rewrite Hrest].
    intros p. rewrite Hv. unfold times_ordered.
    cbn [RecordProductView productsViewed]. rewrite filter_cons.
    destruct (decide (ProductID item = p)) as [->|Hne].
    + rewrite counter_value_inc. cbn [length]. lia.
    + rewrite counter_value_inc_ne; [done|].
      intros [= Heq]. by apply (inj pretty) in Heq.
Qed.

(** X14. The business counters after [OrdersHandler]. The counter of
    processed orders goes up, by one, exactly when 201 was sent and the
    body was written without error; then the views of every product go up
    by the number of times the product occurs in the order, and in no other
    case do they move. The counter of errors goes up under (validation,
    /api/orders) exactly with 400, under (payment, /api/orders) exactly
    with 402, and is untouched with 405 and 201. The handler leaves the
    counter of requests and the gauge of active requests alone. *)
Theorem OrdersHandler_business_metrics env stk r rw s
    (Hi : initialised (world s))
    (Hfresh : rw_status rw = None) :
  exists rw' s' code,
    OrdersHandler env stk r rw s = Val tt rw' s'
    /\ rw_status rw' = Some code
    /\ (ordersProcessed (metrics s') = S (ordersProcessed (metrics s))
        <-> code = 201 /\ env_write_error env = None)
    /\ (ordersProcessed (metrics s') = ordersProcessed (metrics s)
        <-> ~ (code = 201 /\ env_write_error env = None))
    /\ (forall od p,
          body_order r = Ok od -> code = 201 -> env_write_error env = None ->
          counter_value [pretty p] (productsViewed (metrics s'))
          = (counter_value [pretty p] (productsViewed (metrics s))
             + times_ordered p (Items od))%nat)
    /\ (~ (code = 201 /\ env_write_error env = None) ->
        productsViewed (metrics s') = productsViewed (metrics s))
    /\ (counter_value ["validation"; "/api/orders"] (errorCounter (metrics s'))
        = S (counter_value ["validation"; "/api/orders"] (errorCounter (metrics s)))
        <-> code = 400)
    /\ (counter_value ["payment"; "/api/orders"] (errorCounter (metrics s'))
        = S (counter_value ["payment"; "/api/orders"] (errorCounter (metrics s)))
        <-> code = 402)
    /\ (code = 405 \/ code = 201 -> errorCounter (metrics s') = errorCounter (metrics s))
    /\ httpRequestsTotal (metrics s') = httpRequestsTotal (metrics s)
    /\ activeRequests (metrics s') = activeRequests (metrics s).
Proof.
  destruct (decide (Method r = "POST")) as [Hm|Hm].
  2:{ destruct (OrdersHandler_not_post env stk r rw s Hi Hm) as (w' & -> & _).
      destruct (http_Error_fresh (env_write_error env)
                  (error_body "Method not allowed") 405 rw Hfresh) as (Hs & _).
      do 2 eexists. exists 405. split; [reflexivity|]. split; [exact Hs|].
      cbn [metrics]. repeat split; try done; settle. }
  destruct (body_order r) as [od|e] eqn:Hb.
  2:{ destruct (OrdersHandler_bad_body env stk r rw s e Hi Hm Hb) as (w' & -> & _).
      destruct (http_Error_fresh (env_write_error env)
                  (error_body "Invalid JSON") 400 rw Hfresh) as (Hs & _).
      do 2 eexists. exists 400. split; [reflexivity|]. split; [exact Hs|].
      cbn [metrics RecordError ordersProcessed productsViewed errorCounter
           httpRequestsTotal activeRequests].
      rewrite counter_value_inc, counter_value_inc_ne by done.
      repeat split; try done; settle. }
  destruct (Z.lt_ge_cases (Z.of_nat (env_draw env (draws_used s)) mod 100) 15) as [Hd|Hd].
  - destruct (OrdersHandler_payment_failed env stk r rw s od Hi Hm Hb Hd)
      as (w' & -> & _).
    destruct (http_Error_fresh (env_write_error env)
                (error_body "Payment processing failed") 402 rw Hfresh) as (Hs & _).
    do 2 eexists. exists 402. split; [reflexivity|]. split; [exact Hs|].
    cbn [metrics RecordError ordersProcessed productsViewed errorCounter
         httpRequestsTotal activeRequests].
    rewrite counter_value_inc, counter_value_inc_ne by done.
    repeat split; try done; settle.
  - destruct (OrdersHandler_completed env stk r rw s od Hi Hm Hb Hd)
      as (w' & -> & _).
    edestruct (Write_created_fresh (env_write_error env)) as (Hs & _);
      [exact Hfresh|].
    do 2 eexists. exists 201. split; [reflexivity|]. split; [exact Hs|].
    cbn [metrics]. destruct (env_write_error env) as [e|].
    + repeat split; try done; settle.
    + destruct (record_views_fold (Items od) (RecordOrder (metrics s)))
        as [Hv Hrest].
      injection Hrest as Ho He Hh Ha _. rewrite Ho, He, Hh, Ha.
      cbn [RecordOrder ordersProcessed errorCounter httpRequestsTotal activeRequests].
      repeat split; try done; try settle.
      * intros Hn. exfalso. by apply Hn.
      * intros od' p [= <-] _ _. by rewrite Hv.
      * intros Hn. exfalso. by apply Hn.
Qed.

Lemma OrdersHandler_business_metrics_witness :
  initialised (world demo_server)
  /\ rw_status new_response = None
  /\ exists rw' s' code,
       OrdersHandler demo_env demo_site demo_order new_response demo_server
       = Val tt rw' s'
       /\ rw_status rw' = Some code
       /\ httpRequestsTotal (metrics s') = httpRequestsTotal (metrics demo_server).
Proof.
  split; [exact initialised_demo_world|]. split; [reflexivity|].
  destruct (OrdersHandler_business_metrics demo_env demo_site demo_order
              new_response demo_server initialised_demo_world eq_refl)
    as (rw' & s' & code & Hrun & Hs & _ & _ & _ & _ & _ & _ & _ & Hh & _).
  exists rw', s', code. split; [exact Hrun|]. split; [exact Hs|exact Hh].
Defined.

(** ** UsersHandler *)

(** X15. The answers of [UsersHandler], once the logger is there and
    nothing was sent yet. It sends 500 exactly when the draw from
    [rand.Intn(100)] is below 20, and then counts one error under
    (database, /api/users), writes no JSON and asks the random source no
    further; otherwise it sends 200 with the JSON content type, leaves the
    metrics as they are, has asked the random source twice and, when the
    connection takes it, has written one array of three users. *)
Theorem UsersHandler_outcome env stk r rw s
    (Hi : initialised (world s))
    (Hfresh : rw_status rw = None) :
  exists rw' s' code,
    UsersHandler env stk r rw s = Val tt rw' s'
    /\ rw_status rw' = Some code
    /\ (code = 500 <-> Z.of_nat (env_draw env (draws_used s)) mod 100 < 20)
    /\ (code = 200 <-> 20 <= Z.of_nat (env_draw env (draws_used s)) mod 100)
    /\ (counter_value ["database"; "/api/users"] (errorCounter (metrics s'))
        = S (counter_value ["database"; "/api/users"] (errorCounter (metrics s)))
        <-> code = 500)
    /\ (code = 500 ->
        draws_used s' = S (draws_used s)
        /\ rw_sent_header rw' !! "Content-Type" = Some "text/plain; charset=utf-8")
    /\ (code = 200 ->
        metrics s' = metrics s
        /\ draws_used s' = (2 + draws_used s)%nat
        /\ rw_sent_header rw' !! "Content-Type" = Some "application/json"
        /\ (env_write_error env = None ->
            exists users, rw_body rw' = rw_body rw ++ [PArray users]
                          /\ length users = 3%nat)).
Proof.
  destruct (Z.lt_ge_cases (Z.of_nat (env_draw env (draws_used s)) mod 100) 20) as [Hd|Hd].
  - destruct (UsersHandler_failed env stk r rw s Hi Hd) as (w' & -> & _).
    destruct (http_Error_fresh (env_write_error env)
                (error_body "Database connection failed") 500 rw Hfresh)
      as (Hs & _ & Hc & _).
    do 2 eexists. exists 500. split; [reflexivity|]. split; [exact Hs|].
    cbn [metrics draws_used RecordError errorCounter].
    rewrite counter_value_inc, Hc. repeat split; try done; settle.
  - destruct (UsersHandler_listed env stk r rw s Hi Hd) as (w' & -> & _).
    edestruct (Write_json_fresh (env_write_error env)) as (Hs & _ & Hc & Hbody);
      [exact Hfresh|].
    do 2 eexists. exists 200. split; [reflexivity|]. split; [exact Hs|].
    cbn [metrics draws_used]. rewrite Hc, Hbody.
    repeat split; try done; try settle.
    intros ->. by eexists.
Qed.

Lemma UsersHandler_outcome_witness :
  initialised (world demo_server)
  /\ rw_status new_response = None
  /\ exists rw' s' code,
       UsersHandler demo_env demo_site demo_order new_response demo_server
       = Val tt rw' s'
       /\ rw_status rw' = Some code.
Proof.
  split; [exact initialised_demo_world|]. split; [reflexivity|].
  destruct (UsersHandler_outcome demo_env demo_site demo_order new_response
              demo_server initialised_demo_world eq_refl)
    as (rw' & s' & code & Hrun & Hs & _).
  exists rw', s', code. split; [exact Hrun|exact Hs].
Defined.

(** ** The handlers behind the middleware *)

Lemma record_views_requests items m :
  httpRequestsTotal
    (foldl (fun m item => RecordProductView (pretty (ProductID item)) m) m items)
  = httpRequestsTotal m
  /\ httpRequestDuration
       (foldl (fun m item => RecordProductView (pretty (ProductID item)) m) m items)
     = httpRequestDuration m
  /\ httpRequestSize
       (foldl (fun m item => RecordProductView (pretty (ProductID item)) m) m items)
     = httpRequestSize m
  /\ activeRequests
       (foldl (fun m item => RecordProductView (pretty (ProductID item)) m) m items)
     = activeRequests m.
Proof.
  revert m. induction items as [|item items IH]; intros m; cbn [foldl]; [done|].
  by destruct (IH (RecordProductView (pretty (ProductID item)) m))
    as (-> & -> & -> & ->).
Qed.

(** Every handler answers, and notes in the wrappers around the writer the
    status it sends, or sends the 200 they start with. *)
Lemma handler_answers h env stk r rw s :
  h ∈ handlers -> initialised (world s) -> rw_status rw = None ->
  exists rw' s' code,
    h env stk r rw s = Val tt rw' s'
    /\ initialised (world s')
    /\ rw_status rw' = Some code
    /\ (rw_wrappers rw' = (fun _ => code) <$> rw_wrappers rw
        \/ code = 200 /\ rw_wrappers rw' = rw_wrappers rw)
    /\ httpRequestsTotal (metrics s') = httpRequestsTotal (metrics s)
    /\ httpRequestDuration (metrics s') = httpRequestDuration (metrics s)
    /\ httpRequestSize (metrics s') = httpRequestSize (metrics s)
    /\ activeRequests (metrics s') = activeRequests (metrics s).
Proof.
  intros Hh Hi Hf. unfold handlers in Hh.
  repeat (apply elem_of_cons in Hh as [->|Hh]); [| | | | |by apply elem_of_nil in Hh].
  - destruct (HealthHandler_run env stk r rw s Hi) as (w' & -> & Hw).
    edestruct (Write_json_fresh (env_write_error env)) as (Hs & Hwr & _); [exact Hf|].
    do 2 eexists. exists 200. split; [reflexivity|]. split; [exact Hw|].
    split; [exact Hs|]. split; [right; split; [done|exact Hwr]|done].
  - destruct (Z.lt_ge_cases (Z.of_nat (env_draw env (draws_used s)) mod 100) 20)
      as [Hd|Hd].
    + destruct (UsersHandler_failed env stk r rw s Hi Hd) as (w' & -> & Hw).
      edestruct (http_Error_fresh (env_write_error env)) as (Hs & Hwr & _); [exact Hf|].
      do 2 eexists. exists 500. split; [reflexivity|]. split; [exact Hw|].
      split; [exact Hs|]. split; [left; exact Hwr|done].
    + destruct (UsersHandler_listed env stk r rw s Hi Hd) as (w' & -> & Hw).
      edestruct (Write_json_fresh (env_write_error env)) as (Hs & Hwr & _); [exact Hf|].
      do 2 eexists. exists 200. split; [reflexivity|]. split; [exact Hw|].
      split; [exact Hs|]. split; [right; split; [done|exact Hwr]|done].
  - destruct (decide (Method r = "POST")) as [Hm|Hm].
    2:{ destruct (OrdersHandler_not_post env stk r rw s Hi Hm) as (w' & -> & Hw).
        edestruct (http_Error_fresh (env_write_error env)) as (Hs & Hwr & _);
          [exact Hf|].
        do 2 eexists. exists 405. split; [reflexivity|]. split; [exact Hw|].
        split; [exact Hs|]. split; [left; exact Hwr|done]. }
    destruct (body_order r) as [od|e] eqn:Hb.
    2:{ destruct (OrdersHandler_bad_body env stk r rw s e Hi Hm Hb) as (w' & -> & Hw).
        edestruct (http_Error_fresh (env_write_error env)) as (Hs & Hwr & _);
          [exact Hf|].
        do 2 eexists. exists 400. split; [reflexivity|]. split; [exact Hw|].
        split; [exact Hs|]. split; [left; exact Hwr|done]. }
    destruct (Z.lt_ge_cases (Z.of_nat (env_draw env (draws_used s)) mod 100) 15)
      as [Hd|Hd].
    + destruct (OrdersHandler_payment_failed env stk r rw s od Hi Hm Hb Hd)
        as (w' & -> & Hw).
      edestruct (http_Error_fresh (env_write_error env)) as (Hs & Hwr & _); [exact Hf|].
      do 2 eexists. exists 402. split; [reflexivity|]. split; [exact Hw|].
      split; [exact Hs|]. split; [left; exact Hwr|done].
    + destruct (OrdersHandler_completed env stk r rw s od Hi Hm Hb Hd)
        as (w' & -> & Hw).
      edestruct (Write_created_fresh (env_write_error env)) as (Hs & Hwr & _);
        [exact Hf|].
      do 2 eexists. exists 201. split; [reflexivity|]. split; [exact Hw|].
      split; [exact Hs|]. split; [left; exact Hwr|].
      cbn [metrics]. destruct (env_write_error env); [done|].
      by destruct (record_views_requests (Items od) (RecordOrder (metrics s)))
        as (-> & -> & -> & ->).
  - destruct (ProductsHandler_run env stk r rw s Hi) as (w' & -> & Hw).
    edestruct (Write_json_fresh (env_write_error env)) as (Hs & Hwr & _); [exact Hf|].
    do 2 eexists. exists 200. split; [reflexivity|]. split; [exact Hw|].
    split; [exact Hs|]. split; [right; split; [done|exact Hwr]|done].
  - rewrite MetricsHandler_run.
    edestruct (Write_json_fresh (env_write_error env)) as (Hs & Hwr & _); [exact Hf|].
    do 2 eexists. exists 200. split; [reflexivity|]. split; [exact Hi|].
    split; [exact Hs|]. split; [right; split; [done|exact Hwr]|done].
Qed.

(** X16. Behind the middleware, with the logger there and nothing sent
    yet, each of the five handlers returns, and the request is counted once
    under the very status that was sent to the client (the code given to
    [WriteHeader], or 200 when the handler only wrote a body); no other
    counter of requests moves, the duration is observed once, and the gauge
    of active requests is back where it was. *)
Theorem requests_counted_by_status_sent h env stk r rw s
    (Hh : h ∈ handlers)
    (Hi : initialised (world s))
    (Hfresh : rw_status rw = None) :
  exists rw' s' code,
    MetricsMiddleware h env stk r rw s = Val tt rw' s'
    /\ rw_status rw' = Some code
    /\ counter_value [Method r; URL_Path r; pretty code]
                     (httpRequestsTotal (metrics s'))
       = S (counter_value [Method r; URL_Path r; pretty code]
                          (httpRequestsTotal (metrics s)))
    /\ (forall labels,
          labels <> [Method r; URL_Path r; pretty code] ->
          counter_value labels (httpRequestsTotal (metrics s'))
          = counter_value labels (httpRequestsTotal (metrics s)))
    /\ observations [Method r; URL_Path r] (httpRequestDuration (metrics s'))
       = observations [Method r; URL_Path r] (httpRequestDuration (metrics s))
         ++ [env_since env]
    /\ activeRequests (metrics s') = activeRequests (metrics s)
    /\ (rw_wrappers rw' = rw_wrappers rw
        \/ rw_wrappers rw' = (fun _ => code) <$> rw_wrappers rw).
Proof.
  unfold MetricsMiddleware.
  destruct (handler_answers h env
              (mkFrame "MetricsMiddleware.func1" "metrics/metrics.go" 117 :: stk) r
              (push_wrapper rw)
              (mkServer (world s) (add_active 1 (metrics s)) (draws_used s))
              Hh Hi Hfresh)
    as (rw1 & s1 & code & -> & _ & Hs & Hwr & Hrt & Hrd & _ & Ha).
  cbn [metrics add_active httpRequestsTotal httpRequestDuration activeRequests]
    in Hrt, Hrd, Ha.
  assert (wrapper_status rw1 = code) as Hcode.
  { unfold wrapper_status.
    destruct Hwr as [-> |[-> ->]]; by cbn. }
  rewrite Hcode. exists (pop_wrapper rw1). eexists. exists code.
  split; [reflexivity|]. split; [exact Hs|].
  cbn [metrics add_active record_request httpRequestsTotal httpRequestDuration
       activeRequests].
  rewrite Hrt, Hrd, Ha.
  split; [apply counter_value_inc|].
  split; [intros labels Hne; by apply counter_value_inc_ne|].
  split; [apply observations_observe|]. split; [lia|].
  unfold pop_wrapper. cbn [rw_wrappers].
  destruct Hwr as [-> |[_ ->]]; cbn; [by right|by left].
Qed.

Lemma requests_counted_by_status_sent_witness :
  OrdersHandler ∈ handlers
  /\ initialised (world demo_server)
  /\ rw_status new_response = None
  /\ exists rw' s' code,
       MetricsMiddleware OrdersHandler demo_env demo_site demo_order new_response
                         demo_server
       = Val tt rw' s'
       /\ rw_status rw' = Some code
       /\ activeRequests (metrics s') = activeRequests (metrics demo_server).
Proof.
  assert (OrdersHandler ∈ handlers) as Hin.
  { right. right. left. }
  split; [exact Hin|]. split; [exact initialised_demo_world|].
  split; [reflexivity|].
  destruct (requests_counted_by_status_sent OrdersHandler demo_env demo_site
              demo_order new_response demo_server Hin initialised_demo_world
              eq_refl)
    as (rw' & s' & code & Hrun & Hs & _ & _ & _ & Ha & _).
  exists rw', s', code. split; [exact Hrun|]. split; [exact Hs|exact Ha].
Defined.

(** X17. [HealthHandler], [ProductsHandler] and [MetricsHandler] have one
    answer: with the logger there and nothing sent yet they return, the
    status is 200, the content type sent is JSON, the metrics are as they
    were, and when the connection takes it exactly one JSON value was
    written; what is written does not depend on the request. *)
Theorem plain_handlers_answer_200 h env stk r rw s
    (Hh : h ∈ plain_handlers)
    (Hi : initialised (world s))
    (Hfresh : rw_status rw = None) :
  exists rw' s',
    h env stk r rw s = Val tt rw' s'
    /\ rw_status rw' = Some 200
    /\ rw_sent_header rw' !! "Content-Type" = Some "application/json"
    /\ metrics s' = metrics s
    /\ (env_write_error env = None -> exists p, rw_body rw' = rw_body rw ++ [p])
    /\ (forall r2, exists s2, h env stk r2 rw s = Val tt rw' s2).
Proof.
  unfold plain_handlers in Hh.
  repeat (apply elem_of_cons in Hh as [->|Hh]); [| | |by apply elem_of_nil in Hh].
  - destruct (HealthHandler_run env stk r rw s Hi) as (w' & -> & _).
    edestruct (Write_json_fresh (env_write_error env)) as (Hs & _ & Hc & Hb);
      [exact Hfresh|].
    do 2 eexists. split; [reflexivity|]. split; [exact Hs|]. split; [exact Hc|].
    split; [done|]. split.
    + intros He. rewrite Hb, He. by eexists.
    + intros r2. destruct (HealthHandler_run env stk r2 rw s Hi) as (w2 & -> & _).
      by eexists.
  - destruct (ProductsHandler_run env stk r rw s Hi) as (w' & -> & _).
    edestruct (Write_json_fresh (env_write_error env)) as (Hs & _ & Hc & Hb);
      [exact Hfresh|].
    do 2 eexists. split; [reflexivity|]. split; [exact Hs|]. split; [exact Hc|].
    split; [done|]. split.
    + intros He. rewrite Hb, He. by eexists.
    + intros r2. destruct (ProductsHandler_run env stk r2 rw s Hi) as (w2 & -> & _).
      by eexists.
  - rewrite MetricsHandler_run.
    edestruct (Write_json_fresh (env_write_error env)) as (Hs & _ & Hc & Hb);
      [exact Hfresh|].
    do 2 eexists. split; [reflexivity|]. split; [exact Hs|]. split; [exact Hc|].
    split; [done|]. split.
    + intros He. rewrite Hb, He. by eexists.
    + intros r2. rewrite MetricsHandler_run. by eexists.
Qed.

Lemma plain_handlers_answer_200_witness :
  HealthHandler ∈ plain_handlers
  /\ initialised (world demo_server)
  /\ rw_status new_response = None
  /\ exists rw' s',
       HealthHandler demo_env demo_site demo_order new_response demo_server
       = Val tt rw' s'
       /\ rw_status rw' = Some 200.
Proof.
  assert (HealthHandler ∈ plain_handlers) as Hin.
  { left. }
  split; [exact Hin|]. split; [exact initialised_demo_world|].
  split; [reflexivity|].
  destruct (plain_handlers_answer_200 HealthHandler demo_env demo_site demo_order
              new_response demo_server Hin initialised_demo_world eq_refl)
    as (rw' & s' & Hrun & Hs & _).
  exists rw', s'. split; [exact Hrun|exact Hs].
Defined.

(** ** The wrapper of the response writer *)



(** * The order of the dispatches *)

Lemma json_Marshal_ext (h h' : Heap) e e' :
  heap_read h (Fields e) = heap_read h' (Fields e') ->
  (Timestamp e, Level e, Service e, Message e, Environment e, Host e, ServerIP e,
   GoVersion e)
  = (Timestamp e', Level e', Service e', Message e', Environment e', Host e',
     ServerIP e', GoVersion e') ->
  json_Marshal h e = json_Marshal h' e'.
Proof.
  intros Hm [= Ht Hl Hs Hmsg He Hh Hi Hg]. unfold json_Marshal.
  by rewrite Hm, Ht, Hl, Hs, Hmsg, He, Hh, Hi, Hg.
Qed.

Lemma shipped_entry_scalars rt t (h h' : Heap) :
  (Timestamp (shipped_entry rt t h).1, Level (shipped_entry rt t h).1,
   Service (shipped_entry rt t h).1, Message (shipped_entry rt t h).1,
   Environment (shipped_entry rt t h).1, Host (shipped_entry rt t h).1,
   ServerIP (shipped_entry rt t h).1, GoVersion (shipped_entry rt t h).1)
  = (Timestamp (shipped_entry rt t h').1, Level (shipped_entry rt t h').1,
     Service (shipped_entry rt t h').1, Message (shipped_entry rt t h').1,
     Environment (shipped_entry rt t h').1, Host (shipped_entry rt t h').1,
     ServerIP (shipped_entry rt t h').1, GoVersion (shipped_entry rt t h').1).
Proof. unfold shipped_entry, createLogEntry. by destruct (t_fields t). Qed.

(** What a goroutine sends and reports depends on the heap through the
    contents of its own field map only. *)
Lemma run_task_ext rt t w w' :
  heap_read (heap w) (t_fields t) = heap_read (heap w') (t_fields t) ->
  exists tried report,
    posted (run_task rt t w) = posted w ++ tried
    /\ posted (run_task rt t w') = posted w' ++ tried
    /\ stderr (run_task rt t w) = stderr w ++ report
    /\ stderr (run_task rt t w') = stderr w' ++ report.
Proof.
  intros Hm. rewrite !run_task_shipped_entry. cbn zeta.
  rewrite (json_Marshal_ext (shipped_entry rt t (heap w)).2
             (shipped_entry rt t (heap w')).2
             (shipped_entry rt t (heap w)).1
             (shipped_entry rt t (heap w')).1)
    by first [by rewrite !shipped_entry_read|apply shipped_entry_scalars].
  destruct (json_Marshal _ _) as [doc|err].
  2:{ exists [], ["Failed to marshal log: " +:+ err +:+ NL]. cbn.
      by rewrite !app_nil_r. }
  destruct (http_NewRequest_error rt "POST" _) as [err|].
  { exists [], ["Failed to create log request: " +:+ err +:+ NL]. cbn.
    by rewrite !app_nil_r. }
  destruct (http_Do rt _) as [err|code].
  { by exists [log_request (t_logger t) doc],
             ["Failed to send log to ELK: " +:+ err +:+ NL]. }
  destruct (400 <=? code).
  - by exists [log_request (t_logger t) doc],
             ["Logstash returned error: " +:+ pretty code +:+ NL].
  - exists [log_request (t_logger t) doc], []. cbn. by rewrite !app_nil_r.
Qed.

Lemma run_task_heap_read rt t w fields :
  (forall r, fields = Some r -> (r < length (heap w))%nat) ->
  heap_read (heap (run_task rt t w)) fields = heap_read (heap w) fields.
Proof.
  intros Hv. rewrite run_task_heap, shipped_entry_heap.
  destruct (t_fields t); [done|].
  destruct fields as [r|]; [|done]. cbn [heap_read].
  by rewrite lookup_app_l by by apply Hv.
Qed.

Lemma run_task_stdout rt t w : stdout (run_task rt t w) = stdout w.
Proof.
  rewrite run_task_shipped_entry. cbn zeta.
  destruct (json_Marshal _ _) as [doc|err]; [|done].
  destruct (http_NewRequest_error rt "POST" _); [done|].
  destruct (http_Do rt _) as [err|code]; [done|]. by destruct (400 <=? code).
Qed.

(** X19. Two goroutines that wait can run in either order: with the same
    answers from clock and network, the same requests are made and the same
    lines are reported, up to their order; standard output is not
    involved. *)
Theorem dispatch_order_irrelevant rt t1 t2 w
    (Hv1 : forall r, t_fields t1 = Some r -> (r < length (heap w))%nat)
    (Hv2 : forall r, t_fields t2 = Some r -> (r < length (heap w))%nat) :
  posted (run_task rt t2 (run_task rt t1 w))
    ≡ₚ posted (run_task rt t1 (run_task rt t2 w))
  /\ stderr (run_task rt t2 (run_task rt t1 w))
       ≡ₚ stderr (run_task rt t1 (run_task rt t2 w))
  /\ stdout (run_task rt t2 (run_task rt t1 w)) = stdout w
  /\ stdout (run_task rt t1 (run_task rt t2 w)) = stdout w.
Proof.
  destruct (run_task_ext rt t2 (run_task rt t1 w) w
              (run_task_heap_read rt t1 w (t_fields t2) Hv2))
    as (tr2 & rp2 & Hp21 & Hp2 & He21 & He2).
  destruct (run_task_ext rt t1 (run_task rt t2 w) w
              (run_task_heap_read rt t2 w (t_fields t1) Hv1))
    as (tr1 & rp1 & Hp12 & Hp1 & He12 & He1).
  rewrite Hp21, Hp12, Hp1, Hp2, He21, He12, He1, He2.
  split; [|split].
  - rewrite <- !app_assoc. f_equiv. apply Permutation_app_comm.
  - rewrite <- !app_assoc. f_equiv. apply Permutation_app_comm.
  - by rewrite !run_task_stdout.
Qed.

Lemma dispatch_order_irrelevant_witness :
  (forall r, t_fields (mkTask demo_logger "INFO" "first" None) = Some r ->
             (r < length (heap demo_world))%nat)
  /\ posted (run_task demo_rt (mkTask demo_logger "WARN" "second" None)
               (run_task demo_rt (mkTask demo_logger "INFO" "first" None) demo_world))
     ≡ₚ posted (run_task demo_rt (mkTask demo_logger "INFO" "first" None)
                  (run_task demo_rt (mkTask demo_logger "WARN" "second" None)
                     demo_world)).
Proof.
  assert (forall l m r, t_fields (mkTask demo_logger l m None) = Some r ->
                        (r < length (heap demo_world))%nat) as Hv.
  { intros l m r H. discriminate H. }
  split; [exact (Hv "INFO" "first")|].
  exact (proj1 (dispatch_order_irrelevant demo_rt
                  (mkTask demo_logger "INFO" "first" None)
                  (mkTask demo_logger "WARN" "second" None) demo_world
                  (Hv "INFO" "first") (Hv "WARN" "second"))).
Defined.

(** * Serving one request after the other *)

Lemma counter_total_inc labels c :
  counter_total (counter_inc labels c) = S (counter_total c).
Proof.
  unfold counter_total, counter_inc.
  assert (forall (m : gmap (list string) nat) (j1 j2 : list string) (z1 z2 y : nat),
            j1 <> j2 -> m !! j1 = Some z1 -> m !! j2 = Some z2 ->
            (z1 + (z2 + y) = z2 + (z1 + y))%nat) as Hcomm by (intros; lia).
  destruct (c !! labels) as [n|] eqn:Hl; cbn.
  - rewrite <- insert_delete_eq.
    rewrite map_fold_insert_L; [|by eauto|by rewrite lookup_delete_eq].
    rewrite (map_fold_delete_L _ _ labels n c); [lia|by eauto|done].
  - rewrite map_fold_insert_L; [lia|by eauto|done].
Qed.

Lemma handler_answers_world h env stk r rw s :
  h ∈ handlers -> initialised (world s) -> rw_status rw = None ->
  exists rw' s',
    MetricsMiddleware h env stk r rw s = Val tt rw' s'
    /\ initialised (world s')
    /\ is_Some (rw_status rw')
    /\ counter_total (httpRequestsTotal (metrics s'))
       = S (counter_total (httpRequestsTotal (metrics s)))
    /\ activeRequests (metrics s') = activeRequests (metrics s).
Proof.
  intros Hh Hi Hf. unfold MetricsMiddleware.
  destruct (handler_answers h env
              (mkFrame "MetricsMiddleware.func1" "metrics/metrics.go" 117 :: stk) r
              (push_wrapper rw)
              (mkServer (world s) (add_active 1 (metrics s)) (draws_used s))
              Hh Hi Hf)
    as (rw1 & s1 & code & -> & Hw & Hs & _ & Hrt & _ & _ & Ha).
  cbn [metrics add_active httpRequestsTotal activeRequests] in Hrt, Ha.
  do 2 eexists. split; [reflexivity|]. split; [exact Hw|].
  split; [by exists code|].
  cbn [metrics add_active record_request httpRequestsTotal activeRequests].
  rewrite counter_total_inc, Hrt, Ha. split; [done|lia].
Qed.

(** X20. With the logger initialised, as [main] does before it serves, any
    sequence of requests to the five handlers behind the middleware is
    answered without a panic: every request gets a status, the counter of
    requests, summed over all its labels, has grown by the number of
    requests, and the gauge of active requests is where it was. *)
Theorem serve_counts_every_request reqs s
    (Hh : Forall (fun hr => hr.1.1 ∈ handlers) reqs)
    (Hi : initialised (world s)) :
  length (serve reqs s).1 = length reqs
  /\ Forall is_Some (serve reqs s).1
  /\ counter_total (httpRequestsTotal (metrics (serve reqs s).2))
     = (counter_total (httpRequestsTotal (metrics s)) + length reqs)%nat
  /\ activeRequests (metrics (serve reqs s).2) = activeRequests (metrics s)
  /\ initialised (world (serve reqs s).2).
Proof.
  revert s Hi. induction Hh as [|[[h env] r] reqs Hin _ IH]; intros s Hi.
  - cbn. split; [done|]. split; [constructor|]. split; [lia|done].
  - cbn [serve]. cbn [fst] in Hin.
    destruct (handler_answers_world h env server_stack r new_response s Hin Hi eq_refl)
      as (rw' & s' & -> & Hi' & Hst & Ht & Ha).
    destruct (IH s' Hi') as (Hlen & Hall & Htot & Hact & Hini).
    destruct (serve reqs s') as [statuses s2]. cbn [fst snd] in *.
    split; [cbn [length]; by rewrite Hlen|]. split; [by constructor|].
    split; [rewrite Htot, Ht; cbn [length]; lia|]. split; [congruence|done].
Qed.

Lemma serve_counts_every_request_witness :
  Forall (fun hr => hr.1.1 ∈ handlers)
         [(OrdersHandler, demo_env, demo_order); (HealthHandler, demo_env, demo_order)]
  /\ initialised (world demo_server)
  /\ length (serve [(OrdersHandler, demo_env, demo_order);
                    (HealthHandler, demo_env, demo_order)] demo_server).1
     = 2%nat.
Proof.
  assert (Forall (fun hr => hr.1.1 ∈ handlers)
            [(OrdersHandler, demo_env, demo_order);
             (HealthHandler, demo_env, demo_order)]) as Hh.
  { constructor; [right; right; left|]. constructor; [left|constructor]. }
  split; [exact Hh|]. split; [exact initialised_demo_world|].
  exact (proj1 (serve_counts_every_request _ demo_server Hh initialised_demo_world)).
Defined.
